(** * ProjectJetson light bar: the coordination layer, embedded and verified

    A shallow embedding of the Python sources under [lightbar/core]:
    the randomness modulator ([randomness.py]), the schedule window test and
    the fade controller ([scheduler.py]), the telemetry health monitor
    ([oled_sync.py]), the brightness wrapper ([brightness_wrapper.py]) and the
    orchestrator's demo, control and dispatch steps
    ([lightbar_controller.py]).

    Conventions of the embedding.
    - A Python [float] is a real number of [R]: arithmetic is exact, [min]
      and [max] are [Rmin] and [Rmax], a comparison in an [if] is the
      matching decision procedure ([Rgt_dec], [Rlt_dec], ...).  Rounding of
      binary64 is not modelled.
    - [time.time()] is an explicit argument of every operation that reads
      the clock.
    - Objects are records and a method is a function from the record to the
      updated record (and a result).
    - A raised exception is an explicit outcome; what a [try ... except]
      block swallows is written out.
    - The hardware link is the list of calls made on it, newest last. *)

From Stdlib Require Import Reals Lra Lia ZArith List String Bool.
Import ListNotations.

Local Open Scope R_scope.

(** ** Python primitives *)

(** [int(x)] on a float: truncation toward zero. *)
Definition py_int (x : R) : Z :=
  if Rle_dec 0 x then Int_part x else (- Int_part (- x))%Z.

(** [name in names] on a list of strings. *)
Definition str_in (name : string) (names : list string) : bool :=
  existsb (String.eqb name) names.

(** [a != b] on strings. *)
Definition str_ne (a b : string) : bool := negb (String.eqb a b).

(** [xs[i]] with Python's negative indices; [None] stands for [IndexError]. *)
Definition py_index {A : Type} (xs : list A) (i : Z) : option A :=
  let n := Z.of_nat (List.length xs) in
  if (0 <=? i)%Z then nth_error xs (Z.to_nat i)
  else if (- n <=? i)%Z then nth_error xs (Z.to_nat (n + i))
  else None.

(** Exceptions that the modelled code can raise. *)
Inductive Exn : Type :=
| ZeroDivisionError
| KeyError
| IndexError
| RuntimeError.

Inductive Result (A : Type) : Type :=
| Ok (a : A)
| Raise (e : Exn).
Arguments Ok {A} a.
Arguments Raise {A} e.

(** Decision procedures as booleans, for use under [&&] and [negb]. *)
Definition Rgtb (a b : R) : bool := if Rgt_dec a b then true else false.
Definition Rltb (a b : R) : bool := if Rlt_dec a b then true else false.
Definition Rgeb (a b : R) : bool := if Rge_dec a b then true else false.
Definition Rleb (a b : R) : bool := if Rle_dec a b then true else false.
Definition Reqb (a b : R) : bool := if Req_dec_T a b then true else false.

(** ** randomness.py *)

Module Randomness.

(** [calculate_randomness(cpu_percent, ram_percent, temperature)]. *)
Definition calculate_randomness (cpu_percent ram_percent temperature : R) : R :=
  let cpu_normalized := Rmin (cpu_percent / 100) 1 in
  let ram_normalized := Rmin (ram_percent / 100) 1 in
  let base_load := cpu_normalized * (6 / 10) + ram_normalized * (4 / 10) in
  let temp_bonus :=
    if Rgtb temperature 70 then Rmin ((temperature - 70) / 15) 1 else 0 in
  let randomness := 1 + base_load * 3 + temp_bonus in
  Rmax 1 (Rmin 5 randomness).

(** [get_transition_abruptness(randomness)]. *)
Definition get_transition_abruptness (randomness : R) : R := randomness.

(** [jitter_amount] of [apply_timing_jitter]: the half width of the interval
    [random.uniform] draws from. *)
Definition jitter_amount (randomness : R) : R :=
  (randomness - 1) / 4 * (5 / 10).

(** [apply_timing_jitter(base_speed, randomness)]; [draw] is the value of
    [random.uniform(-jitter_amount, jitter_amount)]. *)
Definition apply_timing_jitter (draw : R) (base_speed randomness : R) : R :=
  let jitter := 1 + draw in
  base_speed * jitter.

(** [get_led_count_for_randomness(base_count, randomness, max_leds)]. *)
Definition get_led_count_for_randomness
    (base_count : Z) (randomness : R) (max_leds : Z) : Z :=
  let scaling_factor := (randomness - 1) / 4 in
  let additional_leds := py_int (IZR (max_leds - base_count) * scaling_factor) in
  Z.min (base_count + additional_leds) max_leds.

(** [should_trigger_effect(base_probability, randomness)]; [draw] is the
    value of [random.random()]. *)
Definition should_trigger_effect
    (draw : R) (base_probability randomness : R) : bool :=
  let scaled_probability := base_probability * (1 + (randomness - 1) / 4) in
  let scaled_probability := Rmin scaled_probability 1 in
  Rltb draw scaled_probability.

End Randomness.

(** ** scheduler.py: the schedule window *)

Module Scheduler.

(** [datetime.time]: a naive time of day. *)
Record dtime : Type := mk_dtime {
  hour : Z;
  minute : Z;
  second : Z;
  microsecond : Z
}.

(** [dtime(hour=h, minute=m)], as [parse_time] builds it. *)
Definition hm (h m : Z) : dtime := mk_dtime h m 0 0.

(** [dtime(hour=h, minute=m, second=s)], as [get_current_time] builds it. *)
Definition hms (h m s : Z) : dtime := mk_dtime h m s 0.

(** Comparison of two naive times: the tuples
    [(hour, minute, second, microsecond)] in lexicographic order. *)
Definition dtime_cmp (a b : dtime) : comparison :=
  match (hour a ?= hour b)%Z with
  | Eq =>
    match (minute a ?= minute b)%Z with
    | Eq =>
      match (second a ?= second b)%Z with
      | Eq => (microsecond a ?= microsecond b)%Z
      | c => c
      end
    | c => c
    end
  | c => c
  end.

Definition dtime_le (a b : dtime) : bool :=
  match dtime_cmp a b with Gt => false | _ => true end.
Definition dtime_lt (a b : dtime) : bool :=
  match dtime_cmp a b with Lt => true | _ => false end.
Definition dtime_ge (a b : dtime) : bool := dtime_le b a.

(** The fields of [Scheduler] that the window test reads. *)
Record Scheduler : Type := mk_Scheduler {
  enabled : bool;
  start_time : dtime;
  end_time : dtime
}.

(** [Scheduler.is_within_schedule(current_time=None)]; [wall] is what
    [get_current_time()] returns when no time is passed. *)
Definition is_within_schedule
    (self : Scheduler) (wall : dtime) (current_time : option dtime) : bool :=
  let current_time :=
    match current_time with
    | None => wall
    | Some t => t
    end in
  if dtime_le (start_time self) (end_time self) then
    dtime_le (start_time self) current_time
    && dtime_lt current_time (end_time self)
  else
    dtime_ge current_time (start_time self)
    || dtime_lt current_time (end_time self).

(** A time of day is well formed when its fields are in range, as
    [datetime.time] enforces at construction. *)
Definition dtime_valid (t : dtime) : Prop :=
  (0 <= hour t < 24 /\ 0 <= minute t < 60 /\ 0 <= second t < 60
   /\ 0 <= microsecond t < 1000000)%Z.

(** Microseconds since midnight. *)
Definition since_midnight (t : dtime) : Z :=
  (((hour t * 60 + minute t) * 60 + second t) * 1000000 + microsecond t)%Z.

(** The window of the default configuration and a window across midnight. *)
Definition day_window : Scheduler := mk_Scheduler true (hm 7 0) (hm 20 0).
Definition night_window : Scheduler := mk_Scheduler true (hm 20 0) (hm 7 0).

End Scheduler.

(** ** scheduler.py: the fade controller *)

Module Fade.

Record FadeController : Type := mk_FadeController {
  fading : bool;
  fade_start : R;
  fade_duration : R;
  fade_from : R;
  fade_to : R
}.

(** [FadeController.__init__]. *)
Definition init : FadeController := mk_FadeController false 0 0 0 0.

(** [start_fade(from_brightness, to_brightness, duration)], called when the
    clock reads [now]. *)
Definition start_fade
    (now from_brightness to_brightness duration : R)
    (self : FadeController) : FadeController :=
  mk_FadeController true now duration from_brightness to_brightness.

(** The sine easing of [update]. *)
Definition smooth (progress : R) : R :=
  (sin ((progress - 1 / 2) * PI) + 1) / 2.

(** [update()], called when the clock reads [now].  The division raises
    [ZeroDivisionError] when [fade_duration] is zero; the object is left as it
    was. *)
Definition update (now : R) (self : FadeController)
  : FadeController * Result (option R) :=
  if negb (fading self) then (self, Ok None)
  else
    let elapsed := now - fade_start self in
    if Reqb (fade_duration self) 0 then (self, Raise ZeroDivisionError)
    else
      let progress := Rmin 1 (elapsed / fade_duration self) in
      let smooth_progress := smooth progress in
      let current_brightness :=
        fade_from self + (fade_to self - fade_from self) * smooth_progress in
      if Rgeb progress 1 then
        (mk_FadeController false (fade_start self) (fade_duration self)
           (fade_from self) (fade_to self),
         Ok (Some (fade_to self)))
      else (self, Ok (Some current_brightness)).

(** [is_fading()]. *)
Definition is_fading (self : FadeController) : bool := fading self.

(** A run of [update] calls at the given clock readings, stopping at the first
    exception; the results are listed in call order. *)
Fixpoint updates (times : list R) (self : FadeController)
  : FadeController * list (Result (option R)) :=
  match times with
  | [] => (self, [])
  | now :: rest =>
    match update now self with
    | (self', Raise e) => (self', [Raise e])
    | (self', Ok v) =>
      let '(self'', vs) := updates rest self' in (self'', Ok v :: vs)
    end
  end.

End Fade.

(** ** oled_sync.py *)

Module OledSync.

(** The telemetry document of the producer; a key the reader defaults is
    optional. *)
Record Telemetry : Type := mk_Telemetry {
  timestamp : option R;
  cpu_percent : R;
  ram_percent : R;
  temperature : R;
  load_average : list R
}.

(** What the reader finds at [SHARED_STATE_FILE]. *)
Inductive StateFile : Type :=
| Missing                          (* [state_file.exists()] is false *)
| Unparseable                      (* [json.load] raises [JSONDecodeError] *)
| Unreadable                       (* any other exception while reading *)
| Document (state : Telemetry).

Definition STALE_THRESHOLD : R := 5.

Definition Verdict : Type := (bool * option Telemetry)%type.

Record OLEDSync : Type := mk_OLEDSync {
  last_health_status : option Verdict;
  last_check_time : R;
  check_interval : R;
  oled_recovery_flash_until : R
}.

(** [OLEDSync.__init__]. *)
Definition init : OLEDSync := mk_OLEDSync None 0 5 0.

Definition set_last_health_status (v : option Verdict) (self : OLEDSync) :=
  mk_OLEDSync v (last_check_time self) (check_interval self)
    (oled_recovery_flash_until self).
Definition set_last_check_time (t : R) (self : OLEDSync) :=
  mk_OLEDSync (last_health_status self) t (check_interval self)
    (oled_recovery_flash_until self).
Definition set_oled_recovery_flash_until (t : R) (self : OLEDSync) :=
  mk_OLEDSync (last_health_status self) (last_check_time self)
    (check_interval self) t.

(** [self.last_health_status is None or self.last_health_status[0]]. *)
Definition none_or_healthy (self : OLEDSync) : bool :=
  match last_health_status self with
  | None => true
  | Some (h, _) => h
  end.

(** [check_oled_health()], called when the clock reads [current_time] and the
    shared file holds [file]. *)
Definition check_oled_health
    (current_time : R) (file : StateFile) (self : OLEDSync)
  : OLEDSync * Verdict :=
  if Rltb (current_time - last_check_time self) (check_interval self) then
    (self,
     match last_health_status self with
     | Some v => v
     | None => (true, None)
     end)
  else
    let self := set_last_check_time current_time self in
    match file with
    | Missing =>
      let self :=
        if none_or_healthy self
        then set_last_health_status (Some (false, None)) self
        else self in
      (self, (false, None))
    | Document state =>
      let timestamp :=
        match timestamp state with
        | Some t => t
        | None => 0
        end in
      let age := current_time - timestamp in
      if Rgtb age STALE_THRESHOLD then
        let self :=
          if none_or_healthy self
          then set_last_health_status (Some (false, Some state)) self
          else self in
        (self, (false, Some state))
      else
        let is_healthy := true in
        let was_healthy :=
          match last_health_status self with
          | Some (h, _) => h
          | None => true
          end in
        let self :=
          if negb was_healthy && is_healthy
          then set_oled_recovery_flash_until (current_time + 2) self
          else self in
        let self :=
          set_last_health_status (Some (is_healthy, Some state)) self in
        (self, (is_healthy, Some state))
    | Unparseable => (self, (false, None))
    | Unreadable => (self, (false, None))
    end.

(** [is_showing_recovery_flash()], called when the clock reads [now]. *)
Definition is_showing_recovery_flash (now : R) (self : OLEDSync) : bool :=
  Rltb now (oled_recovery_flash_until self).

(** A check is performed, not answered from the cache, when the interval
    since the last one has passed. *)
Definition due (now : R) (self : OLEDSync) : Prop :=
  now - last_check_time self >= check_interval self.

(** A document stamped [T] with idle readings. *)
Definition stamped (T : R) : Telemetry := mk_Telemetry (Some T) 0 0 50 [0].

(** Three performed checks from the initial monitor: a fresh document at 5,
    the file [second] at 10, a fresh document at 15. *)
Definition three_checks (second : StateFile) : OLEDSync * list bool :=
  let '(s1, v1) := check_oled_health 5 (Document (stamped 5)) init in
  let '(s2, v2) := check_oled_health 10 second s1 in
  let '(s3, v3) := check_oled_health 15 (Document (stamped 15)) s2 in
  (s3, [fst v1; fst v2; fst v3]).

(** The metrics [get_system_metrics] hands out. *)
Record SystemMetrics : Type := mk_SystemMetrics {
  m_cpu_percent : R;
  m_ram_percent : R;
  m_temperature : R;
  m_load_average : list R
}.

(** [get_system_metrics()], called when the clock reads [now] and the shared
    file holds [file].  The modelled document carries the four payload keys,
    so the defaults of [state.get] are not needed. *)
Definition get_system_metrics (now : R) (file : StateFile) (self : OLEDSync)
  : OLEDSync * option SystemMetrics :=
  let '(self, (is_healthy, state)) := check_oled_health now file self in
  if negb is_healthy then (self, None)
  else
    match state with
    | None => (self, None)
    | Some state =>
      (self,
       Some (mk_SystemMetrics (cpu_percent state) (ram_percent state)
               (temperature state) (load_average state)))
    end.


End OledSync.

(** ** lightbar_controller.py and brightness_wrapper.py *)

Module ControllerState.

(** A call made on the [CubeNano] hardware link. *)
Inductive BotCall : Type :=
| set_RGB_call (led_id red green blue : Z)
| set_all_RGB_call (red green blue : Z)
| turn_off_call
| set_effect_call (effect speed color : Z)
| set_fan_call (on : bool)
| close_call.

(** The classes of [effects.py]. *)
Inductive EffectClass : Type :=
| SystemPulseEffect
| LoadRainbowEffect
| RandomSparkleEffect
| ThermalGradientEffect
| LoadBarsEffect.

(** The registry [EFFECTS] of [effects.py]. *)
Definition EFFECTS (effect_name : string) : option EffectClass :=
  if String.eqb effect_name "system_pulse" then Some SystemPulseEffect
  else if String.eqb effect_name "load_rainbow" then Some LoadRainbowEffect
  else if String.eqb effect_name "random_sparkle" then Some RandomSparkleEffect
  else if String.eqb effect_name "thermal_gradient"
       then Some ThermalGradientEffect
  else if String.eqb effect_name "load_bars" then Some LoadBarsEffect
  else None.

(** One [update(...)] call on an effect object: the object's class and the
    positional arguments.  What the effect then renders is not modelled. *)
Record UpdateCall : Type := mk_UpdateCall {
  receiver : EffectClass;
  arguments : list R
}.

(** [self.system_metrics]. *)
Record Metrics : Type := mk_Metrics {
  cpu_percent : R;
  ram_percent : R;
  temperature : R;
  load_average : R;
  system_load : R
}.

(** The control document; a key may be absent. *)
Record ControlDoc : Type := mk_ControlDoc {
  effect : option string;
  brightness : option R;
  enabled : option bool;
  demo_mode : option bool
}.

(** The defaults [read_control_state] returns when there is no readable
    file. *)
Definition control_defaults : ControlDoc :=
  mk_ControlDoc (Some "system_pulse"%string) (Some 100) (Some true)
    (Some false).

(** The attributes of [LightBarController] that the modelled methods read or
    write.  [available_effects] is [config["effects"]["available_effects"]];
    [raw_bot] is the log of calls made on the hardware link, [debug_count]
    the counter of the [BrightnessWrapper] around it; [effect_updates] is
    the log of [update] calls made on effect objects. *)
Record LightBarController : Type := mk_LightBarController {
  available_effects : list string;
  raw_bot : list BotCall;
  debug_count : Z;
  current_effect_name : string;
  current_effect : option EffectClass;
  brightness_multiplier : R;
  demo_mode_active : bool;
  demo_mode_start_time : R;
  demo_mode_previous_effect : option string;
  system_metrics : Metrics;
  fade_controller : Fade.FadeController;
  error_count : Z;
  last_error_log : R;
  last_control_check : R;
  last_metrics_update : R;
  frame_count : Z;
  effect_updates : list UpdateCall
}.

(** [self.demo_mode_effects] and [self.demo_mode_duration], set in
    [__init__] and never reassigned. *)
Definition demo_mode_effects : list string :=
  ["system_pulse"; "load_rainbow"; "random_sparkle"; "thermal_gradient";
   "load_bars"]%string.
Definition demo_mode_duration : R := 30.

(** [self.control_check_interval], set in [__init__] and never reassigned. *)
Definition control_check_interval : R := 5 / 10.

(** The effect list of [get_default_config]. *)
Definition default_available_effects : list string :=
  ["system_pulse"; "load_rainbow"; "random_sparkle"; "thermal_gradient";
   "load_bars"]%string.

(** Attribute assignment. *)
Definition set_raw_bot (v : list BotCall) (s : LightBarController) :=
  mk_LightBarController (available_effects s) v (debug_count s)
    (current_effect_name s) (current_effect s) (brightness_multiplier s)
    (demo_mode_active s) (demo_mode_start_time s)
    (demo_mode_previous_effect s) (system_metrics s) (fade_controller s)
    (error_count s) (last_error_log s) (last_control_check s)
    (last_metrics_update s) (frame_count s) (effect_updates s).
Definition set_debug_count (v : Z) (s : LightBarController) :=
  mk_LightBarController (available_effects s) (raw_bot s) v
    (current_effect_name s) (current_effect s) (brightness_multiplier s)
    (demo_mode_active s) (demo_mode_start_time s)
    (demo_mode_previous_effect s) (system_metrics s) (fade_controller s)
    (error_count s) (last_error_log s) (last_control_check s)
    (last_metrics_update s) (frame_count s) (effect_updates s).
Definition set_current_effect_name (v : string) (s : LightBarController) :=
  mk_LightBarController (available_effects s) (raw_bot s) (debug_count s)
    v (current_effect s) (brightness_multiplier s)
    (demo_mode_active s) (demo_mode_start_time s)
    (demo_mode_previous_effect s) (system_metrics s) (fade_controller s)
    (error_count s) (last_error_log s) (last_control_check s)
    (last_metrics_update s) (frame_count s) (effect_updates s).
Definition set_current_effect (v : option EffectClass)
    (s : LightBarController) :=
  mk_LightBarController (available_effects s) (raw_bot s) (debug_count s)
    (current_effect_name s) v (brightness_multiplier s)
    (demo_mode_active s) (demo_mode_start_time s)
    (demo_mode_previous_effect s) (system_metrics s) (fade_controller s)
    (error_count s) (last_error_log s) (last_control_check s)
    (last_metrics_update s) (frame_count s) (effect_updates s).
Definition set_brightness_multiplier (v : R) (s : LightBarController) :=
  mk_LightBarController (available_effects s) (raw_bot s) (debug_count s)
    (current_effect_name s) (current_effect s) v
    (demo_mode_active s) (demo_mode_start_time s)
    (demo_mode_previous_effect s) (system_metrics s) (fade_controller s)
    (error_count s) (last_error_log s) (last_control_check s)
    (last_metrics_update s) (frame_count s) (effect_updates s).
Definition set_demo_mode_active (v : bool) (s : LightBarController) :=
  mk_LightBarController (available_effects s) (raw_bot s) (debug_count s)
    (current_effect_name s) (current_effect s) (brightness_multiplier s)
    v (demo_mode_start_time s)
    (demo_mode_previous_effect s) (system_metrics s) (fade_controller s)
    (error_count s) (last_error_log s) (last_control_check s)
    (last_metrics_update s) (frame_count s) (effect_updates s).
Definition set_demo_mode_start_time (v : R) (s : LightBarController) :=
  mk_LightBarController (available_effects s) (raw_bot s) (debug_count s)
    (current_effect_name s) (current_effect s) (brightness_multiplier s)
    (demo_mode_active s) v
    (demo_mode_previous_effect s) (system_metrics s) (fade_controller s)
    (error_count s) (last_error_log s) (last_control_check s)
    (last_metrics_update s) (frame_count s) (effect_updates s).
Definition set_demo_mode_previous_effect (v : option string)
    (s : LightBarController) :=
  mk_LightBarController (available_effects s) (raw_bot s) (debug_count s)
    (current_effect_name s) (current_effect s) (brightness_multiplier s)
    (demo_mode_active s) (demo_mode_start_time s)
    v (system_metrics s) (fade_controller s)
    (error_count s) (last_error_log s) (last_control_check s)
    (last_metrics_update s) (frame_count s) (effect_updates s).
Definition set_system_metrics (v : Metrics) (s : LightBarController) :=
  mk_LightBarController (available_effects s) (raw_bot s) (debug_count s)
    (current_effect_name s) (current_effect s) (brightness_multiplier s)
    (demo_mode_active s) (demo_mode_start_time s)
    (demo_mode_previous_effect s) v (fade_controller s)
    (error_count s) (last_error_log s) (last_control_check s)
    (last_metrics_update s) (frame_count s) (effect_updates s).
Definition set_fade_controller (v : Fade.FadeController)
    (s : LightBarController) :=
  mk_LightBarController (available_effects s) (raw_bot s) (debug_count s)
    (current_effect_name s) (current_effect s) (brightness_multiplier s)
    (demo_mode_active s) (demo_mode_start_time s)
    (demo_mode_previous_effect s) (system_metrics s) v
    (error_count s) (last_error_log s) (last_control_check s)
    (last_metrics_update s) (frame_count s) (effect_updates s).
Definition set_error_count (v : Z) (s : LightBarController) :=
  mk_LightBarController (available_effects s) (raw_bot s) (debug_count s)
    (current_effect_name s) (current_effect s) (brightness_multiplier s)
    (demo_mode_active s) (demo_mode_start_time s)
    (demo_mode_previous_effect s) (system_metrics s) (fade_controller s)
    v (last_error_log s) (last_control_check s)
    (last_metrics_update s) (frame_count s) (effect_updates s).
Definition set_last_error_log (v : R) (s : LightBarController) :=
  mk_LightBarController (available_effects s) (raw_bot s) (debug_count s)
    (current_effect_name s) (current_effect s) (brightness_multiplier s)
    (demo_mode_active s) (demo_mode_start_time s)
    (demo_mode_previous_effect s) (system_metrics s) (fade_controller s)
    (error_count s) v (last_control_check s)
    (last_metrics_update s) (frame_count s) (effect_updates s).
Definition set_last_control_check (v : R) (s : LightBarController) :=
  mk_LightBarController (available_effects s) (raw_bot s) (debug_count s)
    (current_effect_name s) (current_effect s) (brightness_multiplier s)
    (demo_mode_active s) (demo_mode_start_time s)
    (demo_mode_previous_effect s) (system_metrics s) (fade_controller s)
    (error_count s) (last_error_log s) v
    (last_metrics_update s) (frame_count s) (effect_updates s).
Definition set_last_metrics_update (v : R) (s : LightBarController) :=
  mk_LightBarController (available_effects s) (raw_bot s) (debug_count s)
    (current_effect_name s) (current_effect s) (brightness_multiplier s)
    (demo_mode_active s) (demo_mode_start_time s)
    (demo_mode_previous_effect s) (system_metrics s) (fade_controller s)
    (error_count s) (last_error_log s) (last_control_check s)
    v (frame_count s) (effect_updates s).
Definition set_frame_count (v : Z) (s : LightBarController) :=
  mk_LightBarController (available_effects s) (raw_bot s) (debug_count s)
    (current_effect_name s) (current_effect s) (brightness_multiplier s)
    (demo_mode_active s) (demo_mode_start_time s)
    (demo_mode_previous_effect s) (system_metrics s) (fade_controller s)
    (error_count s) (last_error_log s) (last_control_check s)
    (last_metrics_update s) v (effect_updates s).
Definition set_effect_updates (v : list UpdateCall)
    (s : LightBarController) :=
  mk_LightBarController (available_effects s) (raw_bot s) (debug_count s)
    (current_effect_name s) (current_effect s) (brightness_multiplier s)
    (demo_mode_active s) (demo_mode_start_time s)
    (demo_mode_previous_effect s) (system_metrics s) (fade_controller s)
    (error_count s) (last_error_log s) (last_control_check s)
    (last_metrics_update s) (frame_count s) v.

End ControllerState.

(** ** brightness_wrapper.py

    The wrapper keeps a reference to the controller and reads
    [controller.brightness_multiplier] at every call, so its methods act on
    the controller record, which holds the hardware link's log as well. *)

Module BrightnessWrapper.
Import ControllerState.

(** [set_RGB(led_id, red, green, blue)]. *)
Definition set_RGB (led_id red green blue : Z)
    (controller : LightBarController) : LightBarController :=
  let brightness := brightness_multiplier controller in
  let r := py_int (IZR red * brightness) in
  let g := py_int (IZR green * brightness) in
  let b := py_int (IZR blue * brightness) in
  set_raw_bot (raw_bot controller ++ [set_RGB_call led_id r g b]) controller.

(** [set_all_RGB(red, green, blue)]; the occasional debug print is not
    modelled. *)
Definition set_all_RGB (red green blue : Z)
    (controller : LightBarController) : LightBarController :=
  let brightness := brightness_multiplier controller in
  let r := py_int (IZR red * brightness) in
  let g := py_int (IZR green * brightness) in
  let b := py_int (IZR blue * brightness) in
  let controller := set_debug_count (debug_count controller + 1) controller in
  set_raw_bot (raw_bot controller ++ [set_all_RGB_call r g b]) controller.

(** [turn_off()]. *)
Definition turn_off (controller : LightBarController) : LightBarController :=
  set_raw_bot (raw_bot controller ++ [turn_off_call]) controller.

(** [set_effect(effect, speed, color)], passed through. *)
Definition set_effect (effect speed color : Z)
    (controller : LightBarController) : LightBarController :=
  set_raw_bot (raw_bot controller ++ [set_effect_call effect speed color])
    controller.

(** [set_fan(enabled)], passed through. *)
Definition set_fan (on : bool)
    (controller : LightBarController) : LightBarController :=
  set_raw_bot (raw_bot controller ++ [set_fan_call on]) controller.

(** [close()], passed through. *)
Definition close (controller : LightBarController) : LightBarController :=
  set_raw_bot (raw_bot controller ++ [close_call]) controller.

(** The operations of the wrapper, as data, and their dispatch. *)
Inductive Operation : Type :=
| op_set_RGB (led_id red green blue : Z)
| op_set_all_RGB (red green blue : Z)
| op_turn_off
| op_set_effect (effect speed color : Z)
| op_set_fan (on : bool)
| op_close.

Definition perform (op : Operation)
    (controller : LightBarController) : LightBarController :=
  match op with
  | op_set_RGB led_id red green blue => set_RGB led_id red green blue controller
  | op_set_all_RGB red green blue => set_all_RGB red green blue controller
  | op_turn_off => turn_off controller
  | op_set_effect effect speed color => set_effect effect speed color controller
  | op_set_fan on => set_fan on controller
  | op_close => close controller
  end.

(** The channel values that a hardware call carries. *)
Definition channels (call : BotCall) : list Z :=
  match call with
  | set_RGB_call _ r g b => [r; g; b]
  | set_all_RGB_call r g b => [r; g; b]
  | _ => []
  end.

(** A run of wrapper operations, in order. *)
Definition perform_all (ops : list Operation)
    (controller : LightBarController) : LightBarController :=
  fold_left (fun c op => perform op c) ops controller.

(** The scaled value of one channel. *)
Definition scaled (channel : Z) (brightness : R) : Z :=
  py_int (IZR channel * brightness).

End BrightnessWrapper.

(** ** lightbar_controller.py: the methods *)

Module Controller.
Import ControllerState.

(** [LightBarController.calculate_randomness()]. *)
Definition calculate_randomness (self : LightBarController) : R :=
  let cpu := cpu_percent (system_metrics self) in
  let ram := ram_percent (system_metrics self) in
  let temp := temperature (system_metrics self) in
  let base_randomness :=
    1 + ((cpu * (6 / 10) + ram * (4 / 10)) / 100) * 3 in
  let base_randomness :=
    if Rgtb temp 70 then
      let temp_bonus := Rmin 1 ((temp - 70) / 20) in
      base_randomness + temp_bonus
    else base_randomness in
  Rmin 5 base_randomness.

(** [set_effect(effect_name)].  [create_effect] raises [ValueError] for a
    name outside [EFFECTS]; the assignment of the name has happened by then
    and the [except] clause returns [False]. *)
Definition set_effect (effect_name : string) (self : LightBarController)
  : LightBarController * bool :=
  if negb (str_in effect_name (available_effects self)) then (self, false)
  else
    let self := set_current_effect_name effect_name self in
    match EFFECTS effect_name with
    | Some cls => (set_current_effect (Some cls) self, true)
    | None => (self, false)
    end.

(** [start_demo_mode()], called when the clock reads [now]. *)
Definition start_demo_mode (now : R) (self : LightBarController)
  : LightBarController * Result bool :=
  if demo_mode_active self then (self, Ok false)
  else
    let self := set_demo_mode_active true self in
    let self := set_demo_mode_start_time now self in
    let self :=
      set_demo_mode_previous_effect (Some (current_effect_name self)) self in
    match py_index demo_mode_effects 0 with
    | None => (self, Raise IndexError)
    | Some first => (fst (set_effect first self), Ok true)
    end.

(** [end_demo_mode()].  An empty name is falsy in
    [if self.demo_mode_previous_effect]. *)
Definition end_demo_mode (self : LightBarController) : LightBarController :=
  let self := set_demo_mode_active false self in
  let self :=
    match demo_mode_previous_effect self with
    | Some previous =>
      if String.eqb previous "" then self else fst (set_effect previous self)
    | None => self
    end in
  set_demo_mode_previous_effect None self.

(** [update_demo_mode()], called when the clock reads [now]. *)
Definition update_demo_mode (now : R) (self : LightBarController)
  : LightBarController * Result unit :=
  if negb (demo_mode_active self) then (self, Ok tt)
  else
    let elapsed := now - demo_mode_start_time self in
    if Rgeb elapsed demo_mode_duration then (end_demo_mode self, Ok tt)
    else
      let effect_duration :=
        demo_mode_duration / INR (List.length demo_mode_effects) in
      let effect_index := py_int (elapsed / effect_duration) in
      let effect_index :=
        Z.min effect_index (Z.of_nat (List.length demo_mode_effects) - 1) in
      match py_index demo_mode_effects effect_index with
      | None => (self, Raise IndexError)
      | Some target_effect =>
        if str_ne target_effect (current_effect_name self)
        then (fst (set_effect target_effect self), Ok tt)
        else (self, Ok tt)
      end.

(** [calculate_randomness_override()], called when the clock reads [now]. *)
Definition calculate_randomness_override (now : R) (self : LightBarController)
  : option R :=
  if negb (demo_mode_active self) then None
  else
    let elapsed := now - demo_mode_start_time self in
    let progress := elapsed / demo_mode_duration in
    let randomness := 1 + progress * 4 in
    Some (Rmin 5 randomness).

(** [set_brightness(brightness)]. *)
Definition set_brightness (brightness : R) (self : LightBarController)
  : LightBarController :=
  set_brightness_multiplier (Rmax 0 (Rmin 1 brightness)) self.

(** [update_effect()].  [render_ok] tells whether the effect's [update]
    returns normally (it raises when the hardware link fails); [t_error] is
    the clock reading taken in the [except] clause. *)
Definition update_effect (render_ok : bool) (t_error : R)
    (self : LightBarController) : LightBarController :=
  match current_effect self with
  | None => self
  | Some obj =>
    if Rleb (brightness_multiplier self) 0 then self
    else
      let randomness := calculate_randomness self in
      let m := system_metrics self in
      let call :=
        if String.eqb (current_effect_name self) "thermal_gradient" then
          mk_UpdateCall obj [system_load m; temperature m; randomness]
        else if String.eqb (current_effect_name self) "load_bars" then
          mk_UpdateCall obj [cpu_percent m; ram_percent m; randomness]
        else
          mk_UpdateCall obj [system_load m; randomness] in
      let self := set_effect_updates (effect_updates self ++ [call]) self in
      if render_ok then self
      else
        let self := set_error_count (error_count self + 1)%Z self in
        let now := t_error in
        if Rgtb (now - last_error_log self) 60 then
          set_last_error_log now (set_error_count 0%Z self)
        else self
  end.

(** [check_control_commands()].  [control] is what [read_control_state()]
    returns, [hw_ok] tells whether a write on the hardware link succeeds, and
    [t_demo] is the clock reading of [start_demo_mode].  The second component
    is the document that [update_control_state(demo_mode=False)] writes back,
    if it is called.  An exception raised in the body skips the rest of it
    and is swallowed by the [except] clause. *)
Definition check_control_commands
    (t_demo : R) (hw_ok : bool) (control : ControlDoc)
    (self : LightBarController) : LightBarController * option ControlDoc :=
  let enabled :=
    match enabled control with
    | Some b => b
    | None => true
    end in
  let applied : LightBarController * Result unit :=
    if negb enabled then
      if Rgtb (brightness_multiplier self) 0 then
        let self := set_brightness_multiplier 0 self in
        let self := BrightnessWrapper.turn_off self in
        if hw_ok then (self, Ok tt) else (self, Raise RuntimeError)
      else (self, Ok tt)
    else
      let effect_applied : LightBarController * Result unit :=
        match effect control with
        | None => (self, Raise KeyError)
        | Some new_effect =>
          if str_ne new_effect (current_effect_name self) then
            if str_in new_effect (available_effects self)
            then (fst (set_effect new_effect self), Ok tt)
            else (self, Ok tt)
          else (self, Ok tt)
        end in
      match effect_applied with
      | (self, Raise e) => (self, Raise e)
      | (self, Ok _) =>
        if negb (Fade.is_fading (fade_controller self)) then
          let new_brightness :=
            match brightness control with
            | Some b => b
            | None => 100
            end / 100 in
          if Rgtb (Rabs (new_brightness - brightness_multiplier self))
                  (1 / 100)
          then (set_brightness_multiplier new_brightness self, Ok tt)
          else (self, Ok tt)
        else (self, Ok tt)
      end in
  match applied with
  | (self, Raise _) => (self, None)
  | (self, Ok _) =>
    let demo :=
      match demo_mode control with
      | Some b => b
      | None => false
      end in
    if demo then
      let written :=
        mk_ControlDoc (effect control) (brightness control)
          (ControllerState.enabled control) (Some false) in
      (fst (start_demo_mode t_demo self), Some written)
    else (self, None)
  end.

(** The clock readings of one loop iteration, one per [time.time()] call. *)
Record Clock : Type := mk_Clock {
  loop_start : R;
  t_fade_start : R;
  t_fade_update : R;
  t_demo_start : R;
  t_demo_update : R;
  t_error : R
}.

(** What one loop iteration takes from outside the controller:
    [action] is the result of [scheduler.update()], [control] the result of
    [read_control_state()], [sensed] the metrics that
    [collect_system_metrics()] leaves in [system_metrics], [hw_ok] and
    [render_ok] whether the hardware writes of this iteration succeed. *)
Record Environment : Type := mk_Environment {
  action : option string;
  control : ControlDoc;
  sensed : Metrics;
  hw_ok : bool;
  render_ok : bool
}.

(** One iteration of the loop of [run()], from [loop_start = time.time()] to
    [self.frame_count += 1].  An exception outside a [try] leaves the loop.
    The second component is the control document written back, if any. *)
Definition run_iteration (clk : Clock) (env : Environment)
    (self : LightBarController)
  : LightBarController * Result (option ControlDoc) :=
  let self :=
    match action env with
    | Some a =>
      if String.eqb a "fade_in" then
        set_fade_controller
          (Fade.start_fade (t_fade_start clk) 0 1 3 (fade_controller self))
          self
      else if String.eqb a "fade_out" then
        set_fade_controller
          (Fade.start_fade (t_fade_start clk) 1 0 2 (fade_controller self))
          self
      else self
    | None => self
    end in
  match Fade.update (t_fade_update clk) (fade_controller self) with
  | (fc, Raise e) => (set_fade_controller fc self, Raise e)
  | (fc, Ok fade_brightness) =>
    let self := set_fade_controller fc self in
    let self :=
      match fade_brightness with
      | Some b => set_brightness_multiplier b self
      | None => self
      end in
    let '(self, written) :=
      if Rgtb (loop_start clk - last_control_check self)
              control_check_interval
      then
        let '(self, written) :=
          check_control_commands (t_demo_start clk) (hw_ok env)
            (control env) self in
        (set_last_control_check (loop_start clk) self, written)
      else (self, None) in
    let self :=
      if Rgtb (loop_start clk - last_metrics_update self) (5 / 10)
      then
        set_last_metrics_update (loop_start clk)
          (set_system_metrics (sensed env) self)
      else self in
    match update_demo_mode (t_demo_update clk) self with
    | (self, Raise e) => (self, Raise e)
    | (self, Ok _) =>
      let self := update_effect (render_ok env) (t_error clk) self in
      (set_frame_count (frame_count self + 1)%Z self, Ok written)
    end
  end.

(** A controller as [__init__] leaves it and [run()] first sets its effect,
    for the effect list [effects], the default effect [default_effect] and
    the brightness [multiplier] of the configuration. *)
Definition init (effects : list string) (default_effect : string)
    (multiplier : R) (boot_fade_in : bool) : LightBarController :=
  let self :=
    mk_LightBarController effects [] 0%Z default_effect None
      (if boot_fade_in then multiplier else 0)
      false 0 None (mk_Metrics 0 0 50 0 0) Fade.init 0%Z 0 0 0 0%Z [] in
  fst (set_effect default_effect self).

(** A run of [update_demo_mode] calls at the given clock readings. *)
Definition demo_updates (times : list R) (self : LightBarController)
  : LightBarController :=
  fold_left (fun s t => fst (update_demo_mode t s)) times self.

(** The demo state that the sequence keeps while it runs. *)
Definition in_demo (t0 : R) (previous : string) (effects : list string)
    (s : LightBarController) : Prop :=
  demo_mode_active s = true
  /\ demo_mode_start_time s = t0
  /\ demo_mode_previous_effect s = Some previous
  /\ available_effects s = effects.

(** The effect object is the one registered under the current name. *)
Definition effect_matches (s : LightBarController) : Prop :=
  current_effect s = EFFECTS (current_effect_name s).

(** A controller with the default configuration, idle metrics and full
    brightness, on which a demo is started at time 100. *)
Definition demo_started : LightBarController :=
  fst (start_demo_mode 100
         (init default_available_effects "system_pulse" 1 true)).

(** The loop iteration at time 115, with the default control document and
    idle sensor readings. *)
Definition clock_115 : Clock := mk_Clock 115 115 115 115 115 115.
Definition idle_environment : Environment :=
  mk_Environment None control_defaults (mk_Metrics 0 0 50 0 0) true true.

(** The fade controller is idle or holds a positive duration, as after any
    [start_fade] of the loop. *)
Definition fade_can_update (s : LightBarController) : Prop :=
  Fade.fading (fade_controller s) = false
  \/ Fade.fade_duration (fade_controller s) > 0.

(** A controller that booted inside the schedule, at full brightness. *)
Definition lit_controller : LightBarController :=
  init default_available_effects "system_pulse" 1 true.

(** A loop iteration in which the scheduler asks for a fade in at time 10,
    the fade is first updated at time 11, and the control document disables
    the light bar. *)
Definition fade_in_clock : Clock := mk_Clock 10 10 11 11 11 11.
Definition fade_in_environment : Environment :=
  mk_Environment (Some "fade_in"%string)
    (mk_ControlDoc (Some "system_pulse"%string) (Some 100) (Some false)
       (Some false))
    (mk_Metrics 0 0 50 0 0) true true.

(** A controller that booted outside the schedule, and the control document
    of a disabled light bar. *)
Definition booted_dark : LightBarController :=
  init default_available_effects "system_pulse" 1 false.
Definition disabled_document : ControlDoc :=
  mk_ControlDoc (Some "system_pulse"%string) (Some 100) (Some false)
    (Some false).



End Controller.

(** ** scheduler.py: the state machine

    The [Scheduler] object around the window: its persisted state document,
    the manual override, the rate-limited [update] and the hot reload of the
    configuration.  The clock of [time.time()] and the time of day of
    [datetime.now()] are arguments; writing the state and configuration
    files is not modelled. *)

Module ScheduleMachine.
Import Scheduler.
Import Stdlib.Strings.Ascii.

(** [ScheduleState]. *)
Inductive ScheduleState : Type :=
| ON
| OFF
| OVERRIDE_ON
| OVERRIDE_OFF
| TRANSITIONING.

(** [self.state]; a key that the code reads with [.get] may be absent. *)
Record State : Type := mk_State {
  schedule_state : option ScheduleState;
  override_until : option R;
  last_transition : option R;
  current_brightness : option R
}.

(** The default state of [load_state]. *)
Definition default_state : State := mk_State (Some OFF) None None (Some 0).

(** The attributes of a [Scheduler] object: the window configuration and
    the rest. *)
Record Machine : Type := mk_Machine {
  config : Scheduler;
  state : State;
  config_mtime : R;
  last_check : R;
  check_interval : R
}.

Definition set_config (v : Scheduler) (self : Machine) : Machine :=
  mk_Machine v (state self) (config_mtime self) (last_check self)
    (check_interval self).
Definition set_state (v : State) (self : Machine) : Machine :=
  mk_Machine (config self) v (config_mtime self) (last_check self)
    (check_interval self).
Definition set_config_mtime (v : R) (self : Machine) : Machine :=
  mk_Machine (config self) (state self) v (last_check self)
    (check_interval self).
Definition set_last_check (v : R) (self : Machine) : Machine :=
  mk_Machine (config self) (state self) (config_mtime self) v
    (check_interval self).

Definition set_schedule_state (v : ScheduleState) (st : State) : State :=
  mk_State (Some v) (override_until st) (last_transition st)
    (current_brightness st).
Definition set_override_until (v : option R) (st : State) : State :=
  mk_State (schedule_state st) v (last_transition st) (current_brightness st).
Definition set_current_brightness (v : R) (st : State) : State :=
  mk_State (schedule_state st) (override_until st) (last_transition st)
    (Some v).

(** [ScheduleState(self.state.get("schedule_state", ScheduleState.OFF.value))]. *)
Definition state_of (st : State) : ScheduleState :=
  match schedule_state st with
  | Some v => v
  | None => OFF
  end.

(** [str.split(sep)] for a separator of one character. *)
Fixpoint split_on (sep : Ascii.ascii) (s : string) : list string :=
  match s with
  | EmptyString => [EmptyString]
  | String c rest =>
    if Ascii.eqb c sep then EmptyString :: split_on sep rest
    else
      match split_on sep rest with
      | part :: parts => String c part :: parts
      | [] => [String c EmptyString]
      end
  end.

(** [f"{n:02d}"] for [n] from 0 to 99. *)
Definition digit (n : Z) : Ascii.ascii :=
  Ascii.ascii_of_nat (48 + Z.to_nat n).
Definition format_02d (n : Z) : string :=
  String (digit (n / 10)) (String (digit (n mod 10)) EmptyString).

(** The value of a string of decimal digits, as [int] reads it; [None] for
    the empty string and for any other character. *)
Definition digit_value (c : Ascii.ascii) : option Z :=
  let n := Z.of_nat (Ascii.nat_of_ascii c) in
  if ((48 <=? n) && (n <=? 57))%Z then Some (n - 48)%Z else None.
Fixpoint digits_value (acc : Z) (s : string) : option Z :=
  match s with
  | EmptyString => Some acc
  | String c rest =>
    match digit_value c with
    | Some d => digits_value (acc * 10 + d) rest
    | None => None
    end
  end.
Definition int_of_digits (s : string) : option Z :=
  match s with
  | EmptyString => None
  | _ => digits_value 0 s
  end.

(** The configuration document; a key may be absent. *)
Record ConfigDoc : Type := mk_ConfigDoc {
  c_enabled : option bool;
  c_start_time : option string;
  c_end_time : option string
}.

(** What [load_config] finds at the configuration path. *)
Inductive ConfigFile : Type :=
| NoConfig                         (* missing or unreadable *)
| ConfigDocument (doc : ConfigDoc).

(** [load_config()]. *)
Definition load_config (file : ConfigFile) : ConfigDoc :=
  match file with
  | ConfigDocument doc => doc
  | NoConfig =>
    mk_ConfigDoc (Some true) (Some "07:00"%string) (Some "20:00"%string)
  end.

(** [a != b] on times of day. *)
Definition dtime_ne (a b : dtime) : bool :=
  match dtime_cmp a b with
  | Eq => false
  | _ => true
  end.

Section WithInt.

(** [int] on a string, of the Python library: [None] stands for
    [ValueError]. *)
Variable int_of_str : string -> option Z.

(** [parse_time(time_str)].  A missing part, a part [int] rejects and a
    field that [datetime.time] rejects all raise inside the [try]; the
    [except] clause answers 07:00. *)
Definition parse_time (time_str : string) : dtime :=
  let parts := split_on ":"%char time_str in
  match nth_error parts 0, nth_error parts 1 with
  | Some part0, Some part1 =>
    match int_of_str part0, int_of_str part1 with
    | Some hour, Some minute =>
      if ((0 <=? hour) && (hour <=? 23) && (0 <=? minute) && (minute <=? 59))%Z
      then hm hour minute
      else hm 7 0
    | _, _ => hm 7 0
    end
  | _, _ => hm 7 0
  end.

(** The three fields that [__init__], [reload_config_if_changed] read from a
    configuration document. *)
Definition configured (doc : ConfigDoc) : Scheduler :=
  mk_Scheduler
    (match c_enabled doc with Some b => b | None => true end)
    (parse_time
       (match c_start_time doc with Some s => s | None => "07:00"%string end))
    (parse_time
       (match c_end_time doc with Some s => s | None => "20:00"%string end)).

(** [reload_config_if_changed()]; [current_mtime] is the modification time
    [_get_config_mtime()] reports and [file] what [load_config] finds. *)
Definition reload_config_if_changed
    (current_mtime : R) (file : ConfigFile) (self : Machine)
  : Machine * bool :=
  if Rgtb current_mtime (config_mtime self) then
    let old := config self in
    let self := set_config (configured (load_config file)) self in
    let self := set_config_mtime current_mtime self in
    if negb (Bool.eqb (enabled old) (enabled (config self)))
       || dtime_ne (start_time old) (start_time (config self))
       || dtime_ne (end_time old) (end_time (config self))
    then (self, true)
    else (self, false)
  else (self, false).

(** [update_config(enabled, start_time, end_time)]; the second component is
    the document written to the configuration file. *)
Definition update_config
    (enabled : bool) (start_time end_time : string) (self : Machine)
  : Machine * ConfigDoc :=
  let self :=
    set_config
      (mk_Scheduler enabled (parse_time start_time) (parse_time end_time))
      self in
  (set_last_check 0 self,
   mk_ConfigDoc (Some enabled) (Some start_time) (Some end_time)).

End WithInt.

(** [get_config()]. *)
Definition get_config (self : Machine) : ConfigDoc :=
  mk_ConfigDoc (Some (enabled (config self)))
    (Some (format_02d (hour (start_time (config self))) ++ ":"
           ++ format_02d (minute (start_time (config self))))%string)
    (Some (format_02d (hour (end_time (config self))) ++ ":"
           ++ format_02d (minute (end_time (config self))))%string).

(** [override_until and now < override_until]: [None] and [0.0] are
    falsy. *)
Definition override_active (now : R) (st : State) : bool :=
  match override_until st with
  | Some u => negb (Reqb u 0) && Rltb now u
  | None => false
  end.

(** [override_until and now >= override_until]. *)
Definition override_expired (now : R) (st : State) : bool :=
  match override_until st with
  | Some u => negb (Reqb u 0) && Rgeb now u
  | None => false
  end.

(** [should_lights_be_on()], called when the clock reads [now] and the time
    of day is [wall]. *)
Definition should_lights_be_on (now : R) (wall : dtime) (self : Machine)
  : bool :=
  if negb (enabled (config self)) then true
  else if override_active now (state self) then
    match state_of (state self) with
    | OVERRIDE_ON | ON => true
    | _ => false
    end
  else is_within_schedule (config self) wall (Some wall).

(** [get_current_brightness_multiplier()]. *)
Definition get_current_brightness_multiplier (self : Machine) : R :=
  match state_of (state self) with
  | OFF | OVERRIDE_OFF => 0
  | TRANSITIONING =>
    match current_brightness (state self) with
    | Some b => b
    | None => 1
    end
  | _ => 1
  end.

(** [set_override(turn_on, duration_seconds)], called when the clock reads
    [now]. *)
Definition set_override
    (now : R) (turn_on : bool) (duration_seconds : R) (self : Machine)
  : Machine :=
  let override_until := now + duration_seconds in
  let st := set_override_until (Some override_until) (state self) in
  let st :=
    set_schedule_state (if turn_on then OVERRIDE_ON else OVERRIDE_OFF) st in
  set_state st self.

(** [clear_override()]; [now] and [wall] are the readings of the
    [should_lights_be_on()] call inside. *)
Definition clear_override (now : R) (wall : dtime) (self : Machine)
  : Machine :=
  let self := set_state (set_override_until None (state self)) self in
  if should_lights_be_on now wall self then
    set_state
      (set_current_brightness 1 (set_schedule_state ON (state self))) self
  else
    set_state
      (set_current_brightness 0 (set_schedule_state OFF (state self))) self.

(** The readings of one [update()] call: its own clock reading, the
    readings of the first and of the second [should_lights_be_on()] call it
    can make, and the configuration file with its modification time. *)
Record Readings : Type := mk_Readings {
  now : R;
  now_a : R;
  wall_a : dtime;
  now_b : R;
  wall_b : dtime;
  current_mtime : R;
  file : ConfigFile
}.

(** [self.state] says the lights are on. *)
Definition is_on (st : State) : bool :=
  match state_of st with
  | ON | OVERRIDE_ON => true
  | _ => false
  end.

(** [update()]. *)
Definition update (int_of_str : string -> option Z) (rd : Readings)
    (self : Machine) : Machine * option string :=
  if Rltb (now rd - last_check self) (check_interval self) then (self, None)
  else
    let self := set_last_check (now rd) self in
    let self :=
      fst (reload_config_if_changed int_of_str (current_mtime rd) (file rd)
             self) in
    if override_expired (now rd) (state self) then
      let self := clear_override (now_a rd) (wall_a rd) self in
      (self,
       Some (if should_lights_be_on (now_b rd) (wall_b rd) self
             then "fade_in"%string else "fade_out"%string))
    else
      let should_be_on := should_lights_be_on (now_a rd) (wall_a rd) self in
      let is_currently_on := is_on (state self) in
      if should_be_on && negb is_currently_on then
        (set_state (set_schedule_state ON (state self)) self,
         Some "fade_in"%string)
      else if negb should_be_on && is_currently_on then
        (set_state (set_schedule_state OFF (state self)) self,
         Some "fade_out"%string)
      else (self, None).

(** [get_boot_behavior()]. *)
Definition get_boot_behavior (now : R) (wall : dtime) (self : Machine)
  : string :=
  if negb (enabled (config self)) then "fade_in"%string
  else if should_lights_be_on now wall self then "fade_in"%string
  else "stay_off"%string.

(** A scheduler as [__init__] leaves it, for the state and configuration
    files found and the modification time of the latter. *)
Definition init (int_of_str : string -> option Z)
    (st : State) (file : ConfigFile) (mtime : R) : Machine :=
  mk_Machine (configured int_of_str (load_config file)) st mtime 0 60.

(** A scheduler booted without files, and the readings of an update at
    clock [t] and time of day [wall] with the configuration file absent. *)
Definition boot_machine : Machine :=
  init int_of_digits default_state NoConfig 0.
Definition readings_at (t : R) (wall : dtime) : Readings :=
  mk_Readings t t wall t wall 0 NoConfig.


End ScheduleMachine.

(** ** CubeNano.py: the hardware link

    The I2C bus is an oracle telling which [write_byte_data] calls succeed,
    a count of the calls made and the list of the bytes that reached a
    register, oldest first.  Sleeping between writes is not modelled. *)

Module CubeNano.

Record Bus : Type := mk_Bus {
  succeeds : nat -> bool;
  attempts : nat;
  written : list (Z * Z)
}.

(** What a method of the link does: return, raise [ValueError] or raise
    [RuntimeError]. *)
Inductive Outcome : Type :=
| Returned
| ValueError
| I2CFailure.

Definition REG_LED_SELECT : Z := 0.
Definition REG_RED : Z := 1.
Definition REG_GREEN : Z := 2.
Definition REG_BLUE : Z := 3.
Definition REG_EFFECT : Z := 4.
Definition REG_SPEED : Z := 5.
Definition REG_COLOR : Z := 6.
Definition REG_OFF : Z := 7.
Definition REG_FAN : Z := 8.
Definition LED_ALL : Z := 255.
Definition LED_COUNT : Z := 14.

(** [self.bus.write_byte_data(address, register, value)]: [false] stands for
    [OSError] or [TimeoutError]. *)
Definition write_byte_data (register value : Z) (bus : Bus) : Bus * bool :=
  let ok := succeeds bus (attempts bus) in
  (mk_Bus (succeeds bus) (S (attempts bus))
     (if ok then written bus ++ [(register, value)] else written bus),
   ok).

(** The loop of [_write_register] with [remaining] attempts left. *)
Fixpoint write_attempts (remaining : nat) (register value : Z) (bus : Bus)
  : Bus * Outcome :=
  match remaining with
  | O => (bus, Returned)
  | S remaining' =>
    let '(bus, ok) := write_byte_data register value bus in
    if ok then (bus, Returned)
    else
      match remaining' with
      | O => (bus, I2CFailure)
      | S _ => write_attempts remaining' register value bus
      end
  end.

(** [_write_register(register, value, retry_count=3)]. *)
Definition _write_register (register value : Z) (bus : Bus) : Bus * Outcome :=
  write_attempts 3 register value bus.

(** A sequence of register writes that stops at the first failure. *)
Fixpoint write_all (writes : list (Z * Z)) (bus : Bus) : Bus * Outcome :=
  match writes with
  | [] => (bus, Returned)
  | (register, value) :: rest =>
    match _write_register register value bus with
    | (bus, Returned) => write_all rest bus
    | failed => failed
    end
  end.

(** [max(0, min(255, int(v)))] on an integer. *)
Definition clamp_byte (v : Z) : Z := Z.max 0 (Z.min 255 v).

(** [set_RGB(led_id, red, green, blue)]. *)
Definition set_RGB (led_id red green blue : Z) (bus : Bus) : Bus * Outcome :=
  if negb (led_id =? LED_ALL)%Z
     && negb ((0 <=? led_id)%Z && (led_id <? LED_COUNT)%Z)
  then (bus, ValueError)
  else
    let red := clamp_byte red in
    let green := clamp_byte green in
    let blue := clamp_byte blue in
    write_all
      [(REG_LED_SELECT, led_id); (REG_RED, red); (REG_GREEN, green);
       (REG_BLUE, blue)] bus.

(** [set_all_RGB(red, green, blue)]. *)
Definition set_all_RGB (red green blue : Z) (bus : Bus) : Bus * Outcome :=
  set_RGB LED_ALL red green blue bus.

(** [set_effect(effect, speed, color)]. *)
Definition set_effect (effect speed color : Z) (bus : Bus) : Bus * Outcome :=
  if negb ((0 <=? effect)%Z && (effect <=? 6)%Z) then (bus, ValueError)
  else if negb ((1 <=? speed)%Z && (speed <=? 3)%Z) then (bus, ValueError)
  else if negb ((0 <=? color)%Z && (color <=? 6)%Z) then (bus, ValueError)
  else
    write_all [(REG_EFFECT, effect); (REG_SPEED, speed); (REG_COLOR, color)]
      bus.

(** [turn_off()]. *)
Definition turn_off (bus : Bus) : Bus * Outcome :=
  _write_register REG_OFF 0 bus.

(** [set_fan(enabled)]. *)
Definition set_fan (enabled : bool) (bus : Bus) : Bus * Outcome :=
  _write_register REG_FAN (if enabled then 0 else 1) bus.

(** A call of the controller's log carried out on the bus; [close] does not
    write. *)
Definition carry_out (call : ControllerState.BotCall) (bus : Bus)
  : Bus * Outcome :=
  match call with
  | ControllerState.set_RGB_call led_id r g b => set_RGB led_id r g b bus
  | ControllerState.set_all_RGB_call r g b => set_all_RGB r g b bus
  | ControllerState.turn_off_call => turn_off bus
  | ControllerState.set_effect_call e s c => set_effect e s c bus
  | ControllerState.set_fan_call on => set_fan on bus
  | ControllerState.close_call => (bus, Returned)
  end.

(** A bus on which every write succeeds, and one on which the first two
    writes fail. *)
Definition good_bus : Bus := mk_Bus (fun _ => true) 0 [].
Definition flaky_bus : Bus := mk_Bus (fun n => (2 <=? n)%nat) 0 [].

End CubeNano.


(** ** lightbar_controller.py: collecting the metrics *)

Module Collect.
Import ControllerState.

(** What the operating system reports when it is asked directly:
    [psutil.cpu_percent], [psutil.virtual_memory().percent],
    [os.getloadavg()[0]], the thermal sensor file in millidegrees ([None]
    when it cannot be read) and [psutil.cpu_count()] ([None] when it is
    undetermined). *)
Record Psutil : Type := mk_Psutil {
  ps_cpu_percent : R;
  ps_ram_percent : R;
  ps_load_average : R;
  ps_temp_millidegrees : option Z;
  ps_cpu_count : option Z
}.

Definition set_cpu_percent (v : R) (m : Metrics) : Metrics :=
  mk_Metrics v (ram_percent m) (temperature m) (load_average m)
    (system_load m).
Definition set_ram_percent (v : R) (m : Metrics) : Metrics :=
  mk_Metrics (cpu_percent m) v (temperature m) (load_average m)
    (system_load m).
Definition set_temperature (v : R) (m : Metrics) : Metrics :=
  mk_Metrics (cpu_percent m) (ram_percent m) v (load_average m)
    (system_load m).
Definition set_load_average (v : R) (m : Metrics) : Metrics :=
  mk_Metrics (cpu_percent m) (ram_percent m) (temperature m) v
    (system_load m).
Definition set_system_load (v : R) (m : Metrics) : Metrics :=
  mk_Metrics (cpu_percent m) (ram_percent m) (temperature m)
    (load_average m) v.

(** [collect_system_metrics()], on the controller and its [oled_sync].  An
    exception inside the [try] ([IndexError] on an empty load list,
    [TypeError] or [ZeroDivisionError] on the CPU count) keeps the
    assignments made before it and skips the rest. *)
Definition collect_system_metrics
    (now : R) (file : OledSync.StateFile) (ps : Psutil)
    (self : LightBarController) (oled_sync : OledSync.OLEDSync)
  : LightBarController * OledSync.OLEDSync :=
  let '(oled_sync, oled_metrics) :=
    OledSync.get_system_metrics now file oled_sync in
  let m := system_metrics self in
  let '(m, raised) :=
    match oled_metrics with
    | Some oled =>
      let m := set_cpu_percent (OledSync.m_cpu_percent oled) m in
      let m := set_ram_percent (OledSync.m_ram_percent oled) m in
      let m := set_temperature (OledSync.m_temperature oled) m in
      match OledSync.m_load_average oled with
      | first :: _ => (set_load_average first m, false)
      | [] => (m, true)
      end
    | None =>
      let m := set_cpu_percent (ps_cpu_percent ps) m in
      let m := set_ram_percent (ps_ram_percent ps) m in
      let m := set_load_average (ps_load_average ps) m in
      let m :=
        match ps_temp_millidegrees ps with
        | Some millidegrees => set_temperature (IZR millidegrees / 1000) m
        | None => set_temperature 50 m
        end in
      (m, false)
    end in
  if raised then (set_system_metrics m self, oled_sync)
  else
    let cpu_norm := cpu_percent m / 100 in
    let ram_norm := ram_percent m / 100 in
    let load_avg := load_average m in
    match ps_cpu_count ps with
    | None => (set_system_metrics m self, oled_sync)
    | Some cpu_count =>
      if (cpu_count =? 0)%Z then (set_system_metrics m self, oled_sync)
      else
        let load_norm := Rmin 1 (load_avg / IZR cpu_count) in
        let system_load :=
          cpu_norm * (6 / 10) + ram_norm * (3 / 10) + load_norm * (1 / 10) in
        (set_system_metrics
           (set_system_load (Rmin 1 (Rmax 0 system_load)) m) self,
         oled_sync)
    end.

(** Readings of a four-core machine at rest. *)
Definition quiet_psutil : Psutil :=
  mk_Psutil 10 20 (1 / 2) (Some 45000%Z) (Some 4%Z).

End Collect.


(** * Properties *)

(** ** Python primitives *)

Lemma py_int_IZR (z : Z) : py_int (IZR z) = z.
Proof.
  unfold py_int.
  destruct (Rle_dec 0 (IZR z)) as [_|_].
  - symmetry. apply Int_part_spec. lra.
  - rewrite <- opp_IZR.
    assert (E : (- z)%Z = Int_part (IZR (- z))) by (apply Int_part_spec; lra).
    rewrite <- E. lia.
Qed.

Lemma py_int_floor (x : R) (z : Z) :
  0 <= IZR z -> IZR z <= x < IZR z + 1 -> py_int x = z.
Proof.
  intros Hz Hx. unfold py_int.
  destruct (Rle_dec 0 x) as [_|Hn]; [|lra].
  symmetry. apply Int_part_spec. lra.
Qed.

Lemma py_int_zero : py_int 0 = 0%Z.
Proof. exact (py_int_IZR 0). Qed.

Lemma str_in_In (name : string) (names : list string) :
  str_in name names = true <-> In name names.
Proof.
  unfold str_in. rewrite existsb_exists. split.
  - intros [y [Hy E]]. apply String.eqb_eq in E. now subst.
  - intros H. exists name. split; [assumption | apply String.eqb_refl].
Qed.

Lemma Rgtb_true (a b : R) : a > b -> Rgtb a b = true.
Proof. intros H. unfold Rgtb. destruct (Rgt_dec a b); [reflexivity | lra]. Qed.

Lemma Rgtb_false (a b : R) : a <= b -> Rgtb a b = false.
Proof. intros H. unfold Rgtb. destruct (Rgt_dec a b); [lra | reflexivity]. Qed.

Lemma Rltb_true (a b : R) : a < b -> Rltb a b = true.
Proof. intros H. unfold Rltb. destruct (Rlt_dec a b); [reflexivity | lra]. Qed.

Lemma Rltb_false (a b : R) : b <= a -> Rltb a b = false.
Proof. intros H. unfold Rltb. destruct (Rlt_dec a b); [lra | reflexivity]. Qed.

Lemma Rgeb_true (a b : R) : a >= b -> Rgeb a b = true.
Proof. intros H. unfold Rgeb. destruct (Rge_dec a b); [reflexivity | lra]. Qed.

Lemma Rgeb_false (a b : R) : a < b -> Rgeb a b = false.
Proof. intros H. unfold Rgeb. destruct (Rge_dec a b); [lra | reflexivity]. Qed.

Lemma Rleb_true (a b : R) : a <= b -> Rleb a b = true.
Proof. intros H. unfold Rleb. destruct (Rle_dec a b); [reflexivity | lra]. Qed.

Lemma Rleb_false (a b : R) : b < a -> Rleb a b = false.
Proof. intros H. unfold Rleb. destruct (Rle_dec a b); [lra | reflexivity]. Qed.

Lemma Reqb_true (a b : R) : a = b -> Reqb a b = true.
Proof.
  intros H. unfold Reqb. destruct (Req_dec_T a b); [reflexivity | contradiction].
Qed.

Lemma Reqb_false (a b : R) : a <> b -> Reqb a b = false.
Proof.
  intros H. unfold Reqb. destruct (Req_dec_T a b); [contradiction | reflexivity].
Qed.

Lemma Rmin_cases (a b : R) :
  (a <= b /\ Rmin a b = a) \/ (b <= a /\ Rmin a b = b).
Proof.
  destruct (Rle_dec a b) as [H|H].
  - left. split; [assumption | now apply Rmin_left].
  - right. split; [lra | apply Rmin_right; lra].
Qed.

Lemma Rmax_cases (a b : R) :
  (b <= a /\ Rmax a b = a) \/ (a <= b /\ Rmax a b = b).
Proof.
  destruct (Rle_dec b a) as [H|H].
  - left. split; [assumption | now apply Rmax_left].
  - right. split; [lra | apply Rmax_right; lra].
Qed.

(** Replaces every [min] and [max] by a variable constrained by its two
    cases, splits the cases and calls linear arithmetic. *)
Ltac name_minmax :=
  repeat match goal with
         | |- context [Rmin ?a ?b] =>
           let x := fresh "m" in
           pose proof (Rmin_cases a b); set (x := Rmin a b) in *; clearbody x
         | |- context [Rmax ?a ?b] =>
           let x := fresh "m" in
           pose proof (Rmax_cases a b); set (x := Rmax a b) in *; clearbody x
         | _ : context [Rmin ?a ?b] |- _ =>
           let x := fresh "m" in
           pose proof (Rmin_cases a b); set (x := Rmin a b) in *; clearbody x
         | _ : context [Rmax ?a ?b] |- _ =>
           let x := fresh "m" in
           pose proof (Rmax_cases a b); set (x := Rmax a b) in *; clearbody x
         end.

Ltac split_reals :=
  name_minmax;
  repeat match goal with
         | H : _ \/ _ |- _ => destruct H
         | H : _ /\ _ |- _ => destruct H
         end;
  subst; try lra.

(** ** The randomness modulator *)

Section RandomnessFacts.
Import Randomness.

Lemma calculate_randomness_bounds (cpu ram temp : R) :
  1 <= calculate_randomness cpu ram temp <= 5.
Proof.
  unfold calculate_randomness, Rgtb.
  destruct (Rgt_dec temp 70); split; split_reals.
Qed.

Lemma calculate_randomness_mono_cpu (cpu cpu' ram temp : R) :
  cpu <= cpu' ->
  calculate_randomness cpu ram temp <= calculate_randomness cpu' ram temp.
Proof.
  intros H. unfold calculate_randomness, Rgtb.
  destruct (Rgt_dec temp 70); split_reals.
Qed.

Lemma calculate_randomness_mono_ram (cpu ram ram' temp : R) :
  ram <= ram' ->
  calculate_randomness cpu ram temp <= calculate_randomness cpu ram' temp.
Proof.
  intros H. unfold calculate_randomness, Rgtb.
  destruct (Rgt_dec temp 70); split_reals.
Qed.

(** C1.  For cpu and ram in [0,100] and temp in [-40,150] the randomness lies
    in [1,5]; it does not decrease when cpu grows with ram and temp fixed,
    nor when ram grows with cpu and temp fixed. *)
Theorem randomness_range_and_monotone (cpu ram temp : R) :
  0 <= cpu <= 100 -> 0 <= ram <= 100 -> -40 <= temp <= 150 ->
  1 <= calculate_randomness cpu ram temp <= 5
  /\ (forall cpu', 0 <= cpu' <= 100 -> cpu <= cpu' ->
        calculate_randomness cpu ram temp
        <= calculate_randomness cpu' ram temp)
  /\ (forall ram', 0 <= ram' <= 100 -> ram <= ram' ->
        calculate_randomness cpu ram temp
        <= calculate_randomness cpu ram' temp).
Proof.
  intros _ _ _. split; [apply calculate_randomness_bounds|]. split.
  - intros cpu' _ H. now apply calculate_randomness_mono_cpu.
  - intros ram' _ H. now apply calculate_randomness_mono_ram.
Qed.

End RandomnessFacts.

Lemma randomness_range_and_monotone_witness :
  (0 <= 20 <= 100 /\ 0 <= 30 <= 100 /\ -40 <= 45 <= 150)
  /\ 1 <= Randomness.calculate_randomness 20 30 45 <= 5
  /\ (forall cpu', 0 <= cpu' <= 100 -> 20 <= cpu' ->
        Randomness.calculate_randomness 20 30 45
        <= Randomness.calculate_randomness cpu' 30 45)
  /\ (forall ram', 0 <= ram' <= 100 -> 30 <= ram' ->
        Randomness.calculate_randomness 20 30 45
        <= Randomness.calculate_randomness 20 ram' 45).
Proof.
  split; [lra|].
  apply (randomness_range_and_monotone 20 30 45); lra.
Defined.

Section StressScenario.
Import ControllerState.

(** C4, as stated, fails: at cpu=95, ram=90, temp=90 the module function
    does not return 5. *)
Lemma stress_scenario_not_clamped :
  Randomness.calculate_randomness 95 90 90 <> 5.
Proof.
  unfold Randomness.calculate_randomness.
  rewrite Rgtb_true by lra. split_reals.
Qed.

(** C4, amended.  At cpu=95, ram=90, temp=90 the temperature bonus is
    saturated at 1 and the randomness is 1 + 0.93 * 3 + 1 = 4.79, below the
    upper bound 5, in the module function and in the controller's method
    alike. *)
Theorem stress_scenario_randomness :
  Randomness.calculate_randomness 95 90 90 = 479 / 100
  /\ (forall (self : LightBarController) (load_average system_load : R),
        Controller.calculate_randomness
          (set_system_metrics (mk_Metrics 95 90 90 load_average system_load)
             self)
        = 479 / 100)
  /\ 479 / 100 < 5.
Proof.
  split; [|split; [|lra]].
  - unfold Randomness.calculate_randomness.
    rewrite Rgtb_true by lra. split_reals.
  - intros self la sl. unfold Controller.calculate_randomness. cbn.
    rewrite Rgtb_true by lra. split_reals.
Qed.

End StressScenario.

(** ** The schedule window *)

Section ScheduleWindow.
Import Scheduler.
Local Open Scope Z_scope.

(** On well-formed times the lexicographic comparison of the fields is the
    comparison of the instants. *)
Lemma dtime_cmp_since_midnight (a b : dtime) :
  dtime_valid a -> dtime_valid b ->
  dtime_cmp a b = (since_midnight a ?= since_midnight b).
Proof.
  destruct a as [ha ma sa ua], b as [hb mb sb ub].
  unfold dtime_valid, dtime_cmp, since_midnight; cbn.
  intros (Hh & Hm & Hs & Hu) (Hh' & Hm' & Hs' & Hu').
  destruct (Z.compare_spec ha hb) as [-> | L | L];
    [| symmetry; apply Z.compare_lt_iff; lia
     | symmetry; apply Z.compare_gt_iff; lia].
  destruct (Z.compare_spec ma mb) as [-> | L | L];
    [| symmetry; apply Z.compare_lt_iff; lia
     | symmetry; apply Z.compare_gt_iff; lia].
  destruct (Z.compare_spec sa sb) as [-> | L | L];
    [| symmetry; apply Z.compare_lt_iff; lia
     | symmetry; apply Z.compare_gt_iff; lia].
  destruct (Z.compare_spec ua ub) as [-> | L | L]; symmetry.
  - apply Z.compare_refl.
  - apply Z.compare_lt_iff; lia.
  - apply Z.compare_gt_iff; lia.
Qed.

Lemma dtime_le_since_midnight (a b : dtime) :
  dtime_valid a -> dtime_valid b ->
  dtime_le a b = true <-> since_midnight a <= since_midnight b.
Proof.
  intros Ha Hb. unfold dtime_le.
  rewrite (dtime_cmp_since_midnight a b Ha Hb).
  destruct (Z.compare_spec (since_midnight a) (since_midnight b));
    split; intros; try lia; try reflexivity; try discriminate.
Qed.

Lemma dtime_lt_since_midnight (a b : dtime) :
  dtime_valid a -> dtime_valid b ->
  dtime_lt a b = true <-> since_midnight a < since_midnight b.
Proof.
  intros Ha Hb. unfold dtime_lt.
  rewrite (dtime_cmp_since_midnight a b Ha Hb).
  destruct (Z.compare_spec (since_midnight a) (since_midnight b));
    split; intros; try lia; try reflexivity; try discriminate.
Qed.

Lemma dtime_le_false_since_midnight (a b : dtime) :
  dtime_valid a -> dtime_valid b ->
  dtime_le a b = false <-> since_midnight b < since_midnight a.
Proof.
  intros Ha Hb. pose proof (dtime_le_since_midnight a b Ha Hb) as H.
  destruct (dtime_le a b); split; intros; try discriminate; try reflexivity.
  - assert (since_midnight a <= since_midnight b) by now apply H. lia.
  - destruct (Z.le_gt_cases (since_midnight a) (since_midnight b)) as [L|L];
      [apply H in L; discriminate | assumption].
Qed.

(** C6.  For well-formed times, with [start <= end] the test holds exactly
    when [start <= t < end], and with [start > end] exactly when [t >= start]
    or [t < end]; the listed times of the windows 07:00-20:00 and 20:00-07:00
    come out as stated. *)
Theorem is_within_schedule_correct (self : Scheduler) (wall t : dtime) :
  dtime_valid (start_time self) -> dtime_valid (end_time self) ->
  dtime_valid t ->
  (since_midnight (start_time self) <= since_midnight (end_time self) ->
   (is_within_schedule self wall (Some t) = true <->
    since_midnight (start_time self) <= since_midnight t
                                     < since_midnight (end_time self)))
  /\ (since_midnight (start_time self) > since_midnight (end_time self) ->
      (is_within_schedule self wall (Some t) = true <->
       since_midnight t >= since_midnight (start_time self)
       \/ since_midnight t < since_midnight (end_time self)))
  /\ is_within_schedule day_window wall (Some (hm 6 59)) = false
  /\ is_within_schedule day_window wall (Some (hm 7 0)) = true
  /\ is_within_schedule day_window wall (Some (hm 19 59)) = true
  /\ is_within_schedule day_window wall (Some (hm 20 0)) = false
  /\ is_within_schedule night_window wall (Some (hm 23 0)) = true
  /\ is_within_schedule night_window wall (Some (hm 3 0)) = true
  /\ is_within_schedule night_window wall (Some (hm 10 0)) = false.
Proof.
  intros Hs He Ht.
  split; [|split; [|repeat split; reflexivity]].
  - intros Hse. unfold is_within_schedule.
    apply (dtime_le_since_midnight _ _ Hs He) in Hse. rewrite Hse.
    rewrite andb_true_iff.
    rewrite (dtime_le_since_midnight _ _ Hs Ht).
    rewrite (dtime_lt_since_midnight _ _ Ht He). reflexivity.
  - intros Hse. unfold is_within_schedule, dtime_ge.
    assert (E : dtime_le (start_time self) (end_time self) = false)
      by (apply dtime_le_false_since_midnight; [assumption..|lia]).
    rewrite E. rewrite orb_true_iff.
    rewrite (dtime_le_since_midnight _ _ Hs Ht).
    rewrite (dtime_lt_since_midnight _ _ Ht He). lia.
Qed.

Lemma is_within_schedule_correct_witness :
  is_within_schedule day_window (hm 0 0) (Some (hms 12 30 15)) = true.
Proof.
  assert (V7 : dtime_valid (hm 7 0)) by (unfold dtime_valid; cbn; lia).
  assert (V20 : dtime_valid (hm 20 0)) by (unfold dtime_valid; cbn; lia).
  assert (Vt : dtime_valid (hms 12 30 15)) by (unfold dtime_valid; cbn; lia).
  destruct (is_within_schedule_correct day_window (hm 0 0) (hms 12 30 15)
              V7 V20 Vt) as [H _].
  apply H; cbn; lia.
Defined.

End ScheduleWindow.

(** ** The fade controller *)

Section FadeFacts.
Import Fade.

Lemma smooth_unit (progress : R) : 0 <= smooth progress <= 1.
Proof.
  unfold smooth.
  pose proof (SIN_bound ((progress - 1 / 2) * PI)) as [L U]. lra.
Qed.

Lemma between_endpoints (a b s : R) :
  0 <= s <= 1 -> Rmin a b <= a + (b - a) * s <= Rmax a b.
Proof.
  intros [L U].
  destruct (Rmin_cases a b) as [[H ->] | [H ->]];
    destruct (Rmax_cases a b) as [[H' ->] | [H' ->]]; nra.
Qed.

(** An idle controller answers [None] and stays idle. *)
Lemma update_idle (now : R) (self : FadeController) :
  fading self = false -> update now self = (self, Ok None).
Proof. intros H. unfold update. now rewrite H. Qed.

Lemma updates_idle (times : list R) (self : FadeController) :
  fading self = false ->
  updates times self = (self, map (fun _ => Ok None) times).
Proof.
  intros H. induction times as [|t ts IH]; [reflexivity|].
  cbn [updates map]. rewrite (update_idle t self H). now rewrite IH.
Qed.

(** Before completion an update reports the eased brightness and leaves the
    session as it is. *)
Lemma update_running (now : R) (self : FadeController) :
  fading self = true -> fade_duration self <> 0 ->
  (now - fade_start self) / fade_duration self < 1 ->
  update now self =
  (self,
   Ok (Some (fade_from self
             + (fade_to self - fade_from self)
               * smooth ((now - fade_start self) / fade_duration self)))).
Proof.
  intros F D P. unfold update. rewrite F. cbn [negb].
  rewrite (Reqb_false _ _ D).
  rewrite (Rmin_right 1 _) by lra.
  now rewrite (Rgeb_false _ _ P).
Qed.

(** At completion an update reports the target and ends the session. *)
Lemma update_completes (now : R) (self : FadeController) :
  fading self = true -> fade_duration self <> 0 ->
  (now - fade_start self) / fade_duration self >= 1 ->
  update now self =
  (mk_FadeController false (fade_start self) (fade_duration self)
     (fade_from self) (fade_to self),
   Ok (Some (fade_to self))).
Proof.
  intros F D P. unfold update. rewrite F. cbn [negb].
  rewrite (Reqb_false _ _ D).
  rewrite (Rmin_left 1 _) by lra.
  now rewrite Rgeb_true by lra.
Qed.

Lemma updates_running (times : list R) (self : FadeController) :
  fading self = true -> fade_duration self <> 0 ->
  Forall (fun t => (t - fade_start self) / fade_duration self < 1) times ->
  fst (updates times self) = self
  /\ Forall (fun r => exists b, r = Ok (Some b)) (snd (updates times self)).
Proof.
  intros F D H. induction H as [|t ts Ht _ IH]; [now split|].
  cbn [updates]. rewrite (update_running t self F D Ht).
  destruct (updates ts self) as [s vs]. cbn in *. destruct IH as [-> IH].
  split; [reflexivity|]. constructor; [eauto | assumption].
Qed.

(** C7.  For a session started with a positive duration, after any run of
    updates made before elapsed/duration reaches 1, the update at which it
    has reached 1 returns the target [to_brightness]; from then on
    [is_fading()] is false and every further update returns [None]. *)
Theorem fade_completes_at_target
    (prior : FadeController) (t0 from_brightness to_brightness duration : R)
    (early : list R) (now : R) (later : list R) :
  duration > 0 ->
  Forall (fun t => (t - t0) / duration < 1) early ->
  (now - t0) / duration >= 1 ->
  let started := start_fade t0 from_brightness to_brightness duration prior in
  let running := fst (updates early started) in
  let finished := fst (update now running) in
  is_fading running = true
  /\ snd (update now running) = Ok (Some to_brightness)
  /\ is_fading finished = false
  /\ updates later finished = (finished, map (fun _ => Ok None) later)
  /\ is_fading (fst (updates later finished)) = false.
Proof.
  intros D E P started running finished.
  assert (F : fading started = true) by reflexivity.
  assert (N : fade_duration started <> 0) by (cbn; lra).
  destruct (updates_running early started F N E) as [R _].
  fold running in R. subst finished. rewrite R.
  rewrite (update_completes now started F N P). cbn [fst snd].
  split; [reflexivity|]. split; [reflexivity|]. split; [reflexivity|].
  rewrite updates_idle by reflexivity. split; reflexivity.
Qed.

Lemma fade_completes_at_target_witness :
  snd (update 13 (fst (updates [10; 11; 12] (start_fade 10 0 1 3 init))))
  = Ok (Some 1).
Proof.
  apply (fade_completes_at_target init 10 0 1 3 [10; 11; 12] 13 [14; 15]).
  - lra.
  - repeat constructor; lra.
  - lra.
Defined.

(** With a positive duration an update returns normally, with a brightness
    when the session is active, and the brightness lies between the two
    endpoints. *)
Lemma update_positive_duration (self : FadeController) (now : R) :
  fade_duration self > 0 ->
  exists r,
    snd (update now self) = Ok r
    /\ (fading self = true -> exists b, r = Some b)
    /\ forall b, r = Some b ->
         Rmin (fade_from self) (fade_to self) <= b
         <= Rmax (fade_from self) (fade_to self).
Proof.
  intros D. unfold update.
  destruct (fading self); cbn [negb].
  - rewrite Reqb_false by lra.
    destruct (Rgeb _ 1); cbn [snd]; eexists; (split; [reflexivity|]);
      (split; [eauto|]); intros b [= <-].
    + pose proof (between_endpoints (fade_from self) (fade_to self) 1) as H.
      replace (fade_from self + (fade_to self - fade_from self) * 1)
        with (fade_to self) in H by lra.
      apply H; lra.
    + apply between_endpoints, smooth_unit.
  - exists None. cbn. split; [reflexivity|].
    split; [discriminate|]. intros b [=].
Qed.

(** C9.  [start_fade] stores any duration, zero included, and marks the
    session active.  With a positive duration every update returns normally
    and a brightness it returns lies between [from_brightness] and
    [to_brightness].  With duration zero the first update raises
    [ZeroDivisionError]. *)
Theorem fade_update_total_and_bounded
    (prior : FadeController) (t0 from_brightness to_brightness : R) :
  (forall duration,
     let started :=
       start_fade t0 from_brightness to_brightness duration prior in
     is_fading started = true /\ fade_duration started = duration)
  /\ (forall duration now,
        duration > 0 ->
        exists b,
          snd (update now
                 (start_fade t0 from_brightness to_brightness duration prior))
          = Ok (Some b)
          /\ Rmin from_brightness to_brightness <= b
             <= Rmax from_brightness to_brightness)
  /\ (forall self now,
        fade_duration self > 0 ->
        exists r,
          snd (update now self) = Ok r
          /\ forall b, r = Some b ->
               Rmin (fade_from self) (fade_to self) <= b
               <= Rmax (fade_from self) (fade_to self))
  /\ (forall now,
        update now (start_fade t0 from_brightness to_brightness 0 prior)
        = (start_fade t0 from_brightness to_brightness 0 prior,
           Raise ZeroDivisionError)).
Proof.
  split; [|split; [|split]].
  - intros duration. split; reflexivity.
  - intros duration now D.
    destruct (update_positive_duration
                (start_fade t0 from_brightness to_brightness duration prior)
                now D) as (r & E & S & B).
    destruct (S eq_refl) as [b ->]. exists b. split; [exact E|].
    now apply B.
  - intros self now D.
    destruct (update_positive_duration self now D) as (r & E & _ & B).
    exists r. now split.
  - intros now. unfold update. cbn. now rewrite Reqb_true.
Qed.

Lemma fade_update_total_and_bounded_witness :
  exists b,
    snd (update 11 (start_fade 10 0 1 3 init)) = Ok (Some b)
    /\ Rmin 0 1 <= b <= Rmax 0 1.
Proof.
  destruct (fade_update_total_and_bounded init 10 0 1) as (_ & H & _).
  apply (H 3 11). lra.
Defined.

End FadeFacts.

(** ** The health monitor *)

Section HealthFacts.
Import OledSync.

Lemma check_cached (now : R) (file : StateFile) (self : OLEDSync) :
  now - last_check_time self < check_interval self ->
  check_oled_health now file self =
  (self,
   match last_health_status self with
   | Some v => v
   | None => (true, None)
   end).
Proof. intros H. unfold check_oled_health. now rewrite Rltb_true. Qed.

(** The verdict of a performed check against a stamped document. *)
Lemma check_document_verdict
    (now T : R) (state : Telemetry) (self : OLEDSync) :
  due now self -> timestamp state = Some T ->
  (now - T <= 5 ->
   snd (check_oled_health now (Document state) self) = (true, Some state))
  /\ (now - T > 5 ->
      snd (check_oled_health now (Document state) self)
      = (false, Some state)).
Proof.
  intros D E. unfold due in D. unfold check_oled_health.
  rewrite Rltb_false by lra. rewrite E. unfold STALE_THRESHOLD. split; intros H.
  - now rewrite Rgtb_false.
  - now rewrite Rgtb_true.
Qed.

(** The verdict of a performed check without a usable document. *)
Lemma check_no_document_verdict (now : R) (self : OLEDSync) :
  due now self ->
  snd (check_oled_health now Missing self) = (false, None)
  /\ snd (check_oled_health now Unparseable self) = (false, None)
  /\ snd (check_oled_health now Unreadable self) = (false, None).
Proof.
  intros D. unfold due in D. unfold check_oled_health.
  rewrite Rltb_false by lra. repeat split.
Qed.

(** A recorded unhealthy status followed by a healthy check arms the cue for
    the two seconds after the check. *)
Lemma check_arms_recovery
    (now T : R) (state : Telemetry) (seen : option Telemetry)
    (self : OLEDSync) :
  due now self -> timestamp state = Some T -> now - T <= 5 ->
  last_health_status self = Some (false, seen) ->
  forall t,
    is_showing_recovery_flash t
      (fst (check_oled_health now (Document state) self)) = true
    <-> t < now + 2.
Proof.
  intros D E A L t. unfold due in D. unfold check_oled_health.
  rewrite Rltb_false by lra. rewrite E. unfold STALE_THRESHOLD.
  rewrite Rgtb_false by lra. cbn. rewrite L. cbn.
  unfold is_showing_recovery_flash, Rltb. cbn.
  destruct (Rlt_dec t (now + 2)); split; intros; try lra; try reflexivity;
    try discriminate.
Qed.

(** A healthy check after a recorded healthy status leaves the cue window
    as it is, so the cue expires. *)
Lemma check_healthy_keeps_window
    (now T : R) (state : Telemetry) (seen : option Telemetry)
    (self : OLEDSync) :
  due now self -> timestamp state = Some T -> now - T <= 5 ->
  last_health_status self = Some (true, seen) ->
  oled_recovery_flash_until
    (fst (check_oled_health now (Document state) self))
  = oled_recovery_flash_until self.
Proof.
  intros D E A L. unfold due in D. unfold check_oled_health.
  rewrite Rltb_false by lra. rewrite E. unfold STALE_THRESHOLD.
  rewrite Rgtb_false by lra. cbn. rewrite L. reflexivity.
Qed.

(** A failed read does not record its verdict. *)
Lemma check_unparseable_not_recorded (now : R) (self : OLEDSync) :
  last_health_status (fst (check_oled_health now Unparseable self))
  = last_health_status self.
Proof.
  unfold check_oled_health.
  destruct (Rltb _ _); reflexivity.
Qed.

(** C8, at the failing input.  With an unparseable file at the second check
    the verdicts are healthy, unhealthy, healthy, yet no cue window is armed
    after the third: the cue is off at 15 and at 16.  With a missing file at
    the second check the same verdicts arm the window, on until 17. *)
Theorem recovery_cue_missed_after_unparseable :
  snd (three_checks Unparseable) = [true; false; true]
  /\ is_showing_recovery_flash 15 (fst (three_checks Unparseable)) = false
  /\ is_showing_recovery_flash 16 (fst (three_checks Unparseable)) = false
  /\ snd (three_checks Missing) = [true; false; true]
  /\ is_showing_recovery_flash 15 (fst (three_checks Missing)) = true
  /\ is_showing_recovery_flash 16 (fst (three_checks Missing)) = true
  /\ is_showing_recovery_flash 17 (fst (three_checks Missing)) = false.
Proof.
  unfold three_checks, check_oled_health, init, stamped, STALE_THRESHOLD.
  cbn.
  rewrite (Rltb_false (5 - 0) 5) by lra.
  rewrite (Rgtb_false (5 - 5) 5) by lra. cbn.
  rewrite (Rltb_false (10 - 5) 5) by lra. cbn.
  rewrite (Rltb_false (15 - 10) 5) by lra.
  rewrite (Rgtb_false (15 - 15) 5) by lra. cbn.
  unfold is_showing_recovery_flash; cbn.
  rewrite (Rltb_false 15 0) by lra.
  rewrite (Rltb_false 16 0) by lra.
  rewrite (Rltb_true 15 (15 + 2)) by lra.
  rewrite (Rltb_true 16 (15 + 2)) by lra.
  rewrite (Rltb_false 17 (15 + 2)) by lra.
  repeat split.
Qed.

End HealthFacts.

(** ** The brightness wrapper *)

Section WrapperFacts.
Import ControllerState BrightnessWrapper.

Lemma scaled_zero (channel : Z) : scaled channel 0 = 0%Z.
Proof. unfold scaled. rewrite Rmult_0_r. apply py_int_zero. Qed.

Lemma scaled_one (channel : Z) : scaled channel 1 = channel.
Proof. unfold scaled. rewrite Rmult_1_r. apply py_int_IZR. Qed.

Lemma perform_brightness (op : Operation) (c : LightBarController) :
  brightness_multiplier (perform op c) = brightness_multiplier c.
Proof. destruct op; reflexivity. Qed.

(** What one operation forwards to the hardware link. *)
Lemma perform_forwards (op : Operation) (c : LightBarController) :
  exists call,
    raw_bot (perform op c) = raw_bot c ++ [call]
    /\ forall v, In v (channels call) ->
         exists channel, v = scaled channel (brightness_multiplier c).
Proof.
  destruct op; cbn; eexists; (split; [reflexivity|]); cbn;
    intros v H; try contradiction;
    repeat (destruct H as [<- | H]; [eexists; reflexivity|]);
    contradiction.
Qed.

Lemma perform_all_forwards_zero (ops : list Operation)
    (c : LightBarController) :
  brightness_multiplier c = 0 ->
  exists calls,
    raw_bot (perform_all ops c) = raw_bot c ++ calls
    /\ Forall (fun call => Forall (eq 0%Z) (channels call)) calls.
Proof.
  revert c. induction ops as [|op ops IH]; intros c B.
  - exists []. split; [now rewrite app_nil_r | constructor].
  - cbn [perform_all fold_left].
    destruct (perform_forwards op c) as (call & E & V).
    destruct (IH (perform op c)) as (calls & E' & V').
    { now rewrite perform_brightness. }
    exists (call :: calls). split.
    + unfold perform_all in E'. rewrite E', E, <- app_assoc. reflexivity.
    + constructor; [|assumption].
      apply Forall_forall. intros v Hv.
      destruct (V v Hv) as [channel ->]. rewrite B.
      symmetry. apply scaled_zero.
Qed.

(** C10.  [set_RGB] and [set_all_RGB] forward each of the three channels
    multiplied by the controller's brightness multiplier at the time of the
    call (and truncated to an integer), the LED index unchanged.  When the
    multiplier is 0, every channel value that any run of wrapper operations
    forwards is 0, whatever the colors. *)
Theorem wrapper_scales_every_channel (c : LightBarController) :
  (forall led_id red green blue,
     raw_bot (set_RGB led_id red green blue c)
     = raw_bot c
       ++ [set_RGB_call led_id
             (py_int (IZR red * brightness_multiplier c))
             (py_int (IZR green * brightness_multiplier c))
             (py_int (IZR blue * brightness_multiplier c))])
  /\ (forall red green blue,
        raw_bot (set_all_RGB red green blue c)
        = raw_bot c
          ++ [set_all_RGB_call
                (py_int (IZR red * brightness_multiplier c))
                (py_int (IZR green * brightness_multiplier c))
                (py_int (IZR blue * brightness_multiplier c))])
  /\ (brightness_multiplier c = 0 ->
      forall ops,
      exists calls,
        raw_bot (perform_all ops c) = raw_bot c ++ calls
        /\ Forall (fun call => Forall (eq 0%Z) (channels call)) calls).
Proof.
  split; [reflexivity|]. split; [reflexivity|].
  intros B ops. now apply perform_all_forwards_zero.
Qed.

Lemma wrapper_scales_every_channel_witness :
  exists calls,
    raw_bot (perform_all [op_set_all_RGB 255 128 0; op_set_RGB 3 10 20 30]
               Controller.booted_dark)
    = raw_bot Controller.booted_dark ++ calls
    /\ Forall (fun call => Forall (eq 0%Z) (channels call)) calls.
Proof.
  destruct (wrapper_scales_every_channel Controller.booted_dark)
    as (_ & _ & H).
  apply H. reflexivity.
Defined.

End WrapperFacts.

(** ** The orchestrator *)

Section ControllerFacts.
Import ControllerState Controller.

(** *** [set_effect] *)

Ltac set_effect_cases name s :=
  unfold set_effect;
  destruct (str_in name (available_effects s)); cbn [negb fst snd];
  [destruct (EFFECTS name); cbn [fst snd]|]; try reflexivity.

Lemma set_effect_available (name : string) (s : LightBarController) :
  available_effects (fst (set_effect name s)) = available_effects s.
Proof. set_effect_cases name s. Qed.

Lemma set_effect_brightness (name : string) (s : LightBarController) :
  brightness_multiplier (fst (set_effect name s)) = brightness_multiplier s.
Proof. set_effect_cases name s. Qed.

Lemma set_effect_raw_bot (name : string) (s : LightBarController) :
  raw_bot (fst (set_effect name s)) = raw_bot s.
Proof. set_effect_cases name s. Qed.

Lemma set_effect_keeps_updates (name : string) (s : LightBarController) :
  effect_updates (fst (set_effect name s)) = effect_updates s.
Proof. set_effect_cases name s. Qed.

Lemma set_effect_metrics (name : string) (s : LightBarController) :
  system_metrics (fst (set_effect name s)) = system_metrics s.
Proof. set_effect_cases name s. Qed.

Lemma set_effect_demo_active (name : string) (s : LightBarController) :
  demo_mode_active (fst (set_effect name s)) = demo_mode_active s.
Proof. set_effect_cases name s. Qed.

Lemma set_effect_demo_start (name : string) (s : LightBarController) :
  demo_mode_start_time (fst (set_effect name s)) = demo_mode_start_time s.
Proof. set_effect_cases name s. Qed.

Lemma set_effect_demo_previous (name : string) (s : LightBarController) :
  demo_mode_previous_effect (fst (set_effect name s))
  = demo_mode_previous_effect s.
Proof. set_effect_cases name s. Qed.

(** A name of the configured list becomes the current name. *)
Lemma set_effect_name (name : string) (s : LightBarController) :
  In name (available_effects s) ->
  current_effect_name (fst (set_effect name s)) = name.
Proof.
  intros H. apply str_in_In in H. unfold set_effect. rewrite H. cbn [negb].
  destruct (EFFECTS name); reflexivity.
Qed.

(** *** The demo sequence *)

Lemma effect_duration_six :
  demo_mode_duration / INR (List.length demo_mode_effects) = 6.
Proof. unfold demo_mode_duration. cbn. lra. Qed.

Lemma py_int_range (x : R) (n : Z) :
  0 <= x < IZR n -> (0 <= py_int x < n)%Z.
Proof.
  intros [L U]. unfold py_int. destruct (Rle_dec 0 x) as [_|]; [|lra].
  destruct (base_Int_part x) as [A B]. split.
  - assert (H : IZR (-1) < IZR (Int_part x)) by lra.
    apply lt_IZR in H. lia.
  - apply lt_IZR. lra.
Qed.

Lemma in_demo_set_effect (t0 : R) (previous : string) (effects : list string)
    (name : string) (s : LightBarController) :
  in_demo t0 previous effects s ->
  in_demo t0 previous effects (fst (set_effect name s)).
Proof.
  intros (A & B & C & D). unfold in_demo.
  now rewrite set_effect_demo_active, set_effect_demo_start,
    set_effect_demo_previous, set_effect_available.
Qed.

(** In the slice [k] of the demo the update selects the effect of index
    [k]. *)
Lemma update_demo_mode_slice (now : R) (k : Z) (s : LightBarController) :
  demo_mode_active s = true ->
  (0 <= k <= 4)%Z ->
  IZR k * 6 <= now - demo_mode_start_time s < IZR k * 6 + 6 ->
  exists target,
    nth_error demo_mode_effects (Z.to_nat k) = Some target
    /\ update_demo_mode now s =
       (if str_ne target (current_effect_name s)
        then fst (set_effect target s) else s, Ok tt).
Proof.
  intros A K E. unfold update_demo_mode. rewrite A. cbn [negb].
  assert (Hk : IZR k <= 4) by (apply IZR_le; lia).
  assert (Hk0 : 0 <= IZR k) by (apply IZR_le; lia).
  rewrite Rgeb_false by (unfold demo_mode_duration; lra).
  rewrite effect_duration_six.
  rewrite (py_int_floor _ k) by lra.
  replace (Z.min k (Z.of_nat (List.length demo_mode_effects) - 1)) with k
    by (cbn; lia).
  unfold py_index. replace (0 <=? k)%Z with true by (symmetry; lia).
  assert (C : k = 0%Z \/ k = 1%Z \/ k = 2%Z \/ k = 3%Z \/ k = 4%Z) by lia.
  destruct C as [-> | [-> | [-> | [-> | ->]]]];
    eexists; (split; [reflexivity|]);
    match goal with
    | |- context [Z.to_nat ?z] =>
      let n := eval vm_compute in (Z.to_nat z) in
      change (Z.to_nat z) with n
    end;
    cbn [nth_error demo_mode_effects];
    destruct (str_ne _ (current_effect_name s)); reflexivity.
Qed.

(** While the demo runs an update selects one effect of the list. *)
Lemma update_demo_mode_in_progress
    (t0 : R) (previous : string) (effects : list string) (now : R)
    (s : LightBarController) :
  in_demo t0 previous effects s -> 0 <= now - t0 < 30 ->
  exists target,
    In target demo_mode_effects
    /\ update_demo_mode now s =
       (if str_ne target (current_effect_name s)
        then fst (set_effect target s) else s, Ok tt).
Proof.
  intros (A & B & _) E.
  pose proof (py_int_range ((now - t0) / 6) 5) as R.
  assert (K : (0 <= py_int ((now - t0) / 6) < 5)%Z) by (apply R; lra).
  set (k := py_int ((now - t0) / 6)) in *.
  assert (S : IZR k * 6 <= now - t0 < IZR k * 6 + 6).
  { subst k. unfold py_int in *.
    destruct (Rle_dec 0 ((now - t0) / 6)) as [_|]; [|lra].
    destruct (base_Int_part ((now - t0) / 6)). lra. }
  destruct (update_demo_mode_slice now k s A) as (target & T & U);
    [lia | now rewrite B |].
  exists target. split; [|exact U]. now apply nth_error_In in T.
Qed.

Lemma demo_effects_registered (target : string) :
  In target demo_mode_effects -> exists cls, EFFECTS target = Some cls.
Proof.
  intros H. cbn in H.
  repeat (destruct H as [<- | H]; [eexists; reflexivity|]).
  contradiction.
Qed.

(** A registered name of the configured list gets its effect object. *)
Lemma set_effect_instance (name : string) (cls : EffectClass)
    (s : LightBarController) :
  In name (available_effects s) -> EFFECTS name = Some cls ->
  current_effect (fst (set_effect name s)) = Some cls.
Proof.
  intros H E. apply str_in_In in H. unfold set_effect.
  rewrite H, E. reflexivity.
Qed.

Lemma set_effect_matches (name : string) (s : LightBarController) :
  In name (available_effects s) -> In name demo_mode_effects ->
  effect_matches (fst (set_effect name s)).
Proof.
  intros H D. destruct (demo_effects_registered name D) as [cls E].
  unfold effect_matches.
  rewrite (set_effect_instance name cls s H E).
  now rewrite (set_effect_name name s H).
Qed.

Lemma update_demo_mode_keeps_demo
    (t0 : R) (previous : string) (effects : list string) (now : R)
    (s : LightBarController) :
  incl demo_mode_effects effects ->
  in_demo t0 previous effects s /\ effect_matches s ->
  0 <= now - t0 < 30 ->
  in_demo t0 previous effects (fst (update_demo_mode now s))
  /\ effect_matches (fst (update_demo_mode now s)).
Proof.
  intros Reg [I M] E.
  destruct (update_demo_mode_in_progress t0 previous effects now s I E)
    as (target & T & U).
  rewrite U. cbn [fst].
  destruct (str_ne _ _); [|now split]. split.
  - now apply in_demo_set_effect.
  - apply set_effect_matches; [|exact T].
    destruct I as (_ & _ & _ & ->). now apply Reg.
Qed.

Lemma demo_updates_keep_demo
    (t0 : R) (previous : string) (effects : list string) (times : list R)
    (s : LightBarController) :
  incl demo_mode_effects effects ->
  in_demo t0 previous effects s /\ effect_matches s ->
  Forall (fun t => 0 <= t - t0 < 30) times ->
  in_demo t0 previous effects (demo_updates times s)
  /\ effect_matches (demo_updates times s).
Proof.
  intros Reg I H. revert s I. induction H as [|t ts Ht _ IH]; intros s I.
  - exact I.
  - cbn [demo_updates fold_left]. apply IH.
    now apply update_demo_mode_keeps_demo.
Qed.

(** The state of a demo just started. *)
Lemma start_demo_mode_in_demo (t0 : R) (s : LightBarController) :
  demo_mode_active s = false ->
  incl demo_mode_effects (available_effects s) ->
  in_demo t0 (current_effect_name s) (available_effects s)
    (fst (start_demo_mode t0 s))
  /\ effect_matches (fst (start_demo_mode t0 s)).
Proof.
  intros A Reg. unfold start_demo_mode. rewrite A.
  cbn [py_index demo_mode_effects Z.leb Z.compare Z.to_nat nth_error fst].
  split.
  - apply in_demo_set_effect. repeat split.
  - apply set_effect_matches; [|cbn; tauto].
    cbn [available_effects set_demo_mode_previous_effect
         set_demo_mode_start_time set_demo_mode_active].
    apply Reg. cbn. tauto.
Qed.

(** Once the total duration has passed the update ends the demo and puts the
    remembered effect back. *)
Lemma update_demo_mode_ends
    (t0 : R) (previous : string) (effects : list string) (now : R)
    (s : LightBarController) :
  in_demo t0 previous effects s -> now - t0 >= 30 ->
  In previous effects -> previous <> ""%string ->
  let s' := fst (update_demo_mode now s) in
  demo_mode_active s' = false
  /\ demo_mode_previous_effect s' = None
  /\ current_effect_name s' = previous
  /\ forall cls, EFFECTS previous = Some cls -> current_effect s' = Some cls.
Proof.
  intros (A & B & C & D) E P N. unfold update_demo_mode.
  rewrite A. cbn [negb]. rewrite B.
  rewrite Rgeb_true by (unfold demo_mode_duration; lra). cbn [fst].
  unfold end_demo_mode. cbn [demo_mode_previous_effect set_demo_mode_active].
  rewrite C. apply String.eqb_neq in N. rewrite N.
  cbn [demo_mode_active demo_mode_previous_effect current_effect_name
       current_effect set_demo_mode_previous_effect].
  assert (P' : In previous (available_effects (set_demo_mode_active false s)))
    by (cbn; now rewrite D).
  split; [|split; [|split]].
  - now rewrite set_effect_demo_active.
  - reflexivity.
  - now apply set_effect_name.
  - intros cls R. now apply set_effect_instance.
Qed.

(** C5.  A demo is started at [t0] with the five effects of the fixed list
    registered in the configuration.  Whatever updates were made inside the
    30 seconds before, after the update at [t0 + 6.5] the current effect is
    the second of the list and the demo is still active; after the update at
    [t0 + 31] the demo is over and the current effect is the one that was
    current when the demo started. *)
Theorem demo_sequence_timeline
    (self : LightBarController) (t0 : R) (early later : list R) :
  demo_mode_active self = false ->
  incl demo_mode_effects (available_effects self) ->
  In (current_effect_name self) (available_effects self) ->
  current_effect_name self <> ""%string ->
  Forall (fun t => 0 <= t - t0 < 30) early ->
  Forall (fun t => 0 <= t - t0 < 30) later ->
  let started := fst (start_demo_mode t0 self) in
  let at_6_5 :=
    fst (update_demo_mode (t0 + 65 / 10) (demo_updates early started)) in
  let at_31 :=
    fst (update_demo_mode (t0 + 31) (demo_updates later at_6_5)) in
  demo_mode_active at_6_5 = true
  /\ nth_error demo_mode_effects 1 = Some (current_effect_name at_6_5)
  /\ current_effect at_6_5 = Some LoadRainbowEffect
  /\ demo_mode_active at_31 = false
  /\ current_effect_name at_31 = current_effect_name self
  /\ (forall cls, EFFECTS (current_effect_name self) = Some cls ->
        current_effect at_31 = Some cls).
Proof.
  intros A Reg Prev NE He Hl started at_6_5 at_31.
  pose proof (start_demo_mode_in_demo t0 self A Reg) as I0.
  fold started in I0.
  pose proof (demo_updates_keep_demo _ _ _ early started Reg I0 He) as I1.
  assert (I2 : in_demo t0 (current_effect_name self) (available_effects self)
                 at_6_5 /\ effect_matches at_6_5).
  { apply update_demo_mode_keeps_demo; [exact Reg | exact I1 | lra]. }
  pose proof (demo_updates_keep_demo _ _ _ later at_6_5 Reg I2 Hl) as [I3 _].
  assert (N : current_effect_name at_6_5 = "load_rainbow"%string).
  { destruct I1 as [(A1 & B1 & _ & D1) _].
    destruct (update_demo_mode_slice (t0 + 65 / 10) 1
                (demo_updates early started) A1) as (target & T & U);
      [lia | rewrite B1; lra |].
    subst at_6_5. rewrite U. cbn [fst]. cbn in T.
    injection T as <-.
    destruct (str_ne _ _) eqn:S.
    - apply set_effect_name. rewrite D1. apply Reg. cbn. tauto.
    - unfold str_ne in S. apply negb_false_iff, String.eqb_eq in S.
      now symmetry. }
  split; [apply I2|]. split; [now rewrite N|]. split.
  - destruct I2 as [_ M]. unfold effect_matches in M. rewrite M, N.
    reflexivity.
  - destruct (update_demo_mode_ends t0 (current_effect_name self)
                (available_effects self) (t0 + 31)
                (demo_updates later at_6_5) I3) as (E1 & _ & E3 & E4);
      [lra | assumption | assumption |].
    split; [|split]; assumption.
Qed.

Lemma demo_sequence_timeline_witness :
  let self := init default_available_effects "thermal_gradient" 1 true in
  let started := fst (start_demo_mode 100 self) in
  let at_6_5 :=
    fst (update_demo_mode (100 + 65 / 10) (demo_updates [101; 103] started)) in
  let at_31 :=
    fst (update_demo_mode (100 + 31) (demo_updates [110; 120] at_6_5)) in
  demo_mode_active at_6_5 = true
  /\ nth_error demo_mode_effects 1 = Some (current_effect_name at_6_5)
  /\ current_effect at_6_5 = Some LoadRainbowEffect
  /\ demo_mode_active at_31 = false
  /\ current_effect_name at_31 = "thermal_gradient"%string
  /\ (forall cls, EFFECTS "thermal_gradient" = Some cls ->
        current_effect at_31 = Some cls).
Proof.
  apply (demo_sequence_timeline
           (init default_available_effects "thermal_gradient" 1 true)
           100 [101; 103] [110; 120]).
  - reflexivity.
  - intros e H. exact H.
  - cbn. tauto.
  - discriminate.
  - repeat constructor; lra.
  - repeat constructor; lra.
Defined.

(** *** Demo randomness *)

(** The randomness that [update_effect] hands to the effect is the value
    computed from the metrics, in a demo as outside of one. *)
Lemma update_effect_passes_live_randomness
    (render_ok : bool) (t_error : R) (obj : EffectClass)
    (s : LightBarController) :
  current_effect s = Some obj -> brightness_multiplier s > 0 ->
  exists call,
    effect_updates (update_effect render_ok t_error s)
    = effect_updates s ++ [call]
    /\ last (arguments call) 0 = calculate_randomness s.
Proof.
  intros C B. unfold update_effect. rewrite C. rewrite Rleb_false by lra.
  destruct (String.eqb _ "thermal_gradient");
    [|destruct (String.eqb _ "load_bars")];
    (eexists; split;
     [destruct render_ok; [reflexivity|];
      cbn; destruct (Rgtb _ 60); reflexivity
     | reflexivity]).
Qed.

(** Decides the comparisons of a goal whose operands are numerals. *)
Ltac decide_reals :=
  repeat match goal with
         | |- context [Rgtb ?a ?b] =>
           first [rewrite (Rgtb_true a b) by lra
                 | rewrite (Rgtb_false a b) by lra]
         | |- context [Rltb ?a ?b] =>
           first [rewrite (Rltb_true a b) by lra
                 | rewrite (Rltb_false a b) by lra]
         | |- context [Rgeb ?a ?b] =>
           first [rewrite (Rgeb_true a b) by lra
                 | rewrite (Rgeb_false a b) by lra]
         | |- context [Rleb ?a ?b] =>
           first [rewrite (Rleb_true a b) by lra
                 | rewrite (Rleb_false a b) by lra]
         | |- context [Reqb ?a ?b] =>
           first [rewrite (Reqb_true a b) by lra
                 | rewrite (Reqb_false a b) by lra]
         end.

Lemma set_fade_controller_same (s : LightBarController) :
  set_fade_controller (fade_controller s) s = s.
Proof. destruct s; reflexivity. Qed.

(** The randomness of the controller reads the metrics only. *)
Lemma calculate_randomness_metrics (a b : LightBarController) :
  system_metrics a = system_metrics b ->
  calculate_randomness a = calculate_randomness b.
Proof. intros E. unfold calculate_randomness. now rewrite E. Qed.

(** A control document that asks for what the controller already does
    changes nothing. *)
Lemma check_control_commands_unchanged
    (t_demo : R) (hw_ok : bool) (control : ControlDoc) (b : R)
    (s : LightBarController) :
  enabled control = Some true ->
  effect control = Some (current_effect_name s) ->
  Fade.fading (fade_controller s) = false ->
  brightness control = Some b ->
  Rabs (b / 100 - brightness_multiplier s) <= 1 / 100 ->
  demo_mode control = Some false ->
  check_control_commands t_demo hw_ok control s = (s, None).
Proof.
  intros E F I B A D. unfold check_control_commands.
  rewrite E, F, B, D. cbn [negb]. unfold str_ne.
  rewrite String.eqb_refl. cbn [negb]. unfold Fade.is_fading. rewrite I.
  cbn [negb]. now rewrite Rgtb_false by lra.
Qed.

(** A loop iteration in the slice [k] of a demo, with no fade, an unchanged
    control document and an effect of the plain kind due: the effect is
    switched and updated with the randomness of the sensed metrics. *)
Lemma iteration_in_demo_slice
    (clk : Clock) (env : Environment) (s : LightBarController)
    (k : Z) (target : string) (cls : EffectClass) :
  action env = None ->
  Fade.fading (fade_controller s) = false ->
  loop_start clk - last_control_check s > control_check_interval ->
  check_control_commands (t_demo_start clk) (hw_ok env) (control env) s
  = (s, None) ->
  loop_start clk - last_metrics_update s > 5 / 10 ->
  demo_mode_active s = true ->
  (0 <= k <= 4)%Z ->
  IZR k * 6 <= t_demo_update clk - demo_mode_start_time s < IZR k * 6 + 6 ->
  nth_error demo_mode_effects (Z.to_nat k) = Some target ->
  str_ne target (current_effect_name s) = true ->
  str_in target (available_effects s) = true ->
  EFFECTS target = Some cls ->
  String.eqb target "thermal_gradient" = false ->
  String.eqb target "load_bars" = false ->
  brightness_multiplier s > 0 ->
  render_ok env = true ->
  demo_mode_active (fst (run_iteration clk env s)) = true
  /\ effect_updates (fst (run_iteration clk env s))
     = effect_updates s
       ++ [mk_UpdateCall cls
             [system_load (sensed env);
              calculate_randomness (set_system_metrics (sensed env) s)]].
Proof.
  intros Ha Hf Hd Hc Hm Hdemo Hk Hslice Hnth Hne Hin Hreg Hth Hlb Hb Hr.
  unfold run_iteration. rewrite Ha.
  rewrite (update_idle _ _ Hf). cbv iota beta.
  rewrite set_fade_controller_same.
  rewrite (Rgtb_true _ _ Hd). rewrite Hc. cbv iota beta.
  cbn [last_metrics_update set_last_control_check].
  rewrite (Rgtb_true _ _ Hm).
  set (s2 := set_last_metrics_update _ _).
  destruct (update_demo_mode_slice (t_demo_update clk) k s2)
    as (target' & T & U); [exact Hdemo | exact Hk | exact Hslice |].
  rewrite Hnth in T. injection T as <-. rewrite U.
  change (current_effect_name s2) with (current_effect_name s).
  rewrite Hne. cbv iota beta. cbn [fst].
  unfold set_effect.
  change (available_effects s2) with (available_effects s).
  rewrite Hin, Hreg. cbn [negb fst].
  unfold update_effect.
  cbn [current_effect set_current_effect brightness_multiplier
       set_current_effect_name current_effect_name].
  change (brightness_multiplier s2) with (brightness_multiplier s).
  rewrite Rleb_false by lra. rewrite Hth, Hlb, Hr.
  cbn [fst]. split; [exact Hdemo|].
  cbn [effect_updates set_frame_count ControllerState.set_effect_updates].
  reflexivity.
Qed.

(** C2, at the failing input.  Fifteen seconds into a demo the override
    computed by [calculate_randomness_override] is 3, half way up the ramp,
    but the loop iteration hands the effect the randomness 1 computed from
    the idle metrics. *)
Theorem demo_randomness_is_live :
  demo_mode_active demo_started = true
  /\ calculate_randomness_override 115 demo_started = Some 3
  /\ demo_mode_active (fst (run_iteration clock_115 idle_environment
                              demo_started)) = true
  /\ effect_updates (fst (run_iteration clock_115 idle_environment
                            demo_started))
     = [mk_UpdateCall RandomSparkleEffect [0; 1]].
Proof.
  assert (F1 : demo_mode_active demo_started = true) by reflexivity.
  assert (F2 : demo_mode_start_time demo_started = 100) by reflexivity.
  assert (F3 : brightness_multiplier demo_started = 1) by reflexivity.
  assert (F4 : last_control_check demo_started = 0) by reflexivity.
  assert (F5 : last_metrics_update demo_started = 0) by reflexivity.
  assert (F6 : effect_updates demo_started = []) by reflexivity.
  split; [exact F1|]. split.
  - unfold calculate_randomness_override. rewrite F1, F2. cbn [negb].
    f_equal. unfold demo_mode_duration. split_reals.
  - destruct (iteration_in_demo_slice clock_115 idle_environment
                demo_started 2 "random_sparkle" RandomSparkleEffect)
      as [A B]; try reflexivity.
    + rewrite F4. unfold control_check_interval. cbn [loop_start clock_115].
      lra.
    + apply (check_control_commands_unchanged _ _ _ 100);
        try reflexivity.
      rewrite F3. replace (100 / 100 - 1) with 0 by lra.
      rewrite Rabs_R0. lra.
    + rewrite F5. cbn [loop_start clock_115]. lra.
    + lia.
    + rewrite F2. cbn [t_demo_update clock_115]. lra.
    + rewrite F3. lra.
    + split; [exact A|]. rewrite B, F6. cbn [app].
      assert (R1 : calculate_randomness
                     (set_system_metrics (sensed idle_environment)
                        demo_started) = 1).
      { unfold calculate_randomness.
        cbn [system_metrics set_system_metrics sensed idle_environment
             cpu_percent ram_percent temperature].
        decide_reals. split_reals. }
      rewrite R1. reflexivity.
Qed.

(** *** The control check *)

Lemma start_demo_mode_brightness (t : R) (s : LightBarController) :
  brightness_multiplier (fst (start_demo_mode t s)) = brightness_multiplier s.
Proof.
  unfold start_demo_mode. destruct (demo_mode_active s); [reflexivity|].
  cbn [py_index demo_mode_effects Z.leb Z.compare Z.to_nat nth_error fst].
  now rewrite set_effect_brightness.
Qed.

Lemma start_demo_mode_raw_bot (t : R) (s : LightBarController) :
  raw_bot (fst (start_demo_mode t s)) = raw_bot s.
Proof.
  unfold start_demo_mode. destruct (demo_mode_active s); [reflexivity|].
  cbn [py_index demo_mode_effects Z.leb Z.compare Z.to_nat nth_error fst].
  now rewrite set_effect_raw_bot.
Qed.

Lemma start_demo_mode_effect_updates (t : R) (s : LightBarController) :
  effect_updates (fst (start_demo_mode t s)) = effect_updates s.
Proof.
  unfold start_demo_mode. destruct (demo_mode_active s); [reflexivity|].
  cbn [py_index demo_mode_effects Z.leb Z.compare Z.to_nat nth_error fst].
  now rewrite set_effect_keeps_updates.
Qed.

Lemma end_demo_mode_brightness (s : LightBarController) :
  brightness_multiplier (end_demo_mode s) = brightness_multiplier s.
Proof.
  unfold end_demo_mode. cbn.
  destruct (demo_mode_previous_effect s) as [p|]; [|reflexivity].
  destruct (String.eqb p ""); [reflexivity|].
  now rewrite set_effect_brightness.
Qed.

Lemma end_demo_mode_effect_updates (s : LightBarController) :
  effect_updates (end_demo_mode s) = effect_updates s.
Proof.
  unfold end_demo_mode. cbn.
  destruct (demo_mode_previous_effect s) as [p|]; [|reflexivity].
  destruct (String.eqb p ""); [reflexivity|].
  now rewrite set_effect_keeps_updates.
Qed.

Lemma update_demo_mode_brightness (now : R) (s : LightBarController) :
  brightness_multiplier (fst (update_demo_mode now s))
  = brightness_multiplier s.
Proof.
  unfold update_demo_mode.
  destruct (demo_mode_active s); cbn [negb]; [|reflexivity].
  destruct (Rgeb _ _); [apply end_demo_mode_brightness|].
  destruct (py_index _ _) as [target|]; [|reflexivity].
  destruct (str_ne _ _); cbn [fst];
    [now rewrite set_effect_brightness | reflexivity].
Qed.

Lemma update_demo_mode_effect_updates (now : R) (s : LightBarController) :
  effect_updates (fst (update_demo_mode now s)) = effect_updates s.
Proof.
  unfold update_demo_mode.
  destruct (demo_mode_active s); cbn [negb]; [|reflexivity].
  destruct (Rgeb _ _); [apply end_demo_mode_effect_updates|].
  destruct (py_index _ _) as [target|]; [|reflexivity].
  destruct (str_ne _ _); cbn [fst];
    [now rewrite set_effect_keeps_updates | reflexivity].
Qed.

(** With the lights dark no effect is updated. *)
Lemma update_effect_dark (render_ok : bool) (t_error : R)
    (s : LightBarController) :
  brightness_multiplier s <= 0 -> update_effect render_ok t_error s = s.
Proof.
  intros B. unfold update_effect.
  destruct (current_effect s); [|reflexivity]. now rewrite Rleb_true.
Qed.

(** The control check on a document with [enabled = false]. *)
Lemma check_control_commands_disabled
    (t_demo : R) (hw_ok : bool) (control : ControlDoc)
    (s : LightBarController) :
  enabled control = Some false ->
  let s' := fst (check_control_commands t_demo hw_ok control s) in
  effect_updates s' = effect_updates s
  /\ (brightness_multiplier s > 0 ->
      brightness_multiplier s' = 0
      /\ raw_bot s' = raw_bot s ++ [turn_off_call])
  /\ (brightness_multiplier s <= 0 ->
      brightness_multiplier s' = brightness_multiplier s
      /\ raw_bot s' = raw_bot s).
Proof.
  intros E. unfold check_control_commands. rewrite E. cbn [negb].
  split; [|split]; intros.
  - destruct (Rgtb _ 0); [destruct hw_ok|];
      destruct (demo_mode control) as [[|]|]; cbn [fst];
      rewrite ?start_demo_mode_effect_updates; reflexivity.
  - rewrite Rgtb_true by lra.
    destruct hw_ok; destruct (demo_mode control) as [[|]|]; cbn [fst];
      rewrite ?start_demo_mode_brightness, ?start_demo_mode_raw_bot;
      split; reflexivity.
  - rewrite Rgtb_false by lra.
    destruct (demo_mode control) as [[|]|]; cbn [fst];
      rewrite ?start_demo_mode_brightness, ?start_demo_mode_raw_bot;
      split; reflexivity.
Qed.

(** C3, as stated, fails: on a controller whose brightness is already 0 a
    document with [enabled = false] issues no hardware call at all. *)
Lemma disable_when_dark_issues_no_clear :
  enabled disabled_document = Some false
  /\ raw_bot booted_dark = []
  /\ raw_bot (fst (check_control_commands 0 true disabled_document
                     booted_dark)) = []
  /\ ~ In turn_off_call
         (raw_bot (fst (check_control_commands 0 true disabled_document
                          booted_dark))).
Proof.
  assert (E : raw_bot (fst (check_control_commands 0 true disabled_document
                              booted_dark)) = []).
  { unfold check_control_commands, disabled_document, booted_dark. cbn.
    decide_reals. reflexivity. }
  rewrite E. repeat split. intros [].
Qed.

Lemma check_control_commands_disabled_dark
    (t_demo : R) (hw_ok : bool) (control : ControlDoc)
    (s : LightBarController) :
  enabled control = Some false ->
  brightness_multiplier (fst (check_control_commands t_demo hw_ok control s))
  <= 0.
Proof.
  intros E.
  destruct (check_control_commands_disabled t_demo hw_ok control s E)
    as (_ & Lit & Dark).
  destruct (Rle_dec (brightness_multiplier s) 0) as [D|L].
  - destruct (Dark D) as [-> _]. exact D.
  - destruct Lit as [-> _]; lra.
Qed.

(** C3, amended.  When the document read at a control check has
    [enabled = false]: a brightness above 0 becomes 0 and one [turn_off] is
    issued on the hardware link; a brightness of 0 or below is left as it is
    and no hardware call is made.  Neither depends on the current effect or
    on a fade in flight, and at the end of a loop iteration that makes this
    check the brightness is at most 0 and no effect has been updated. *)
Theorem disable_forces_dark
    (self : LightBarController) (control : ControlDoc) :
  enabled control = Some false ->
  (forall t_demo hw_ok,
     let self' := fst (check_control_commands t_demo hw_ok control self) in
     (brightness_multiplier self > 0 ->
      brightness_multiplier self' = 0
      /\ raw_bot self' = raw_bot self ++ [turn_off_call])
     /\ (brightness_multiplier self <= 0 ->
         brightness_multiplier self' = brightness_multiplier self
         /\ raw_bot self' = raw_bot self))
  /\ (forall clk env,
        Controller.control env = control ->
        loop_start clk - last_control_check self > control_check_interval ->
        fade_can_update self ->
        let out := fst (run_iteration clk env self) in
        brightness_multiplier out <= 0
        /\ effect_updates out = effect_updates self).
Proof.
  intros E. split.
  - intros t_demo hw_ok.
    destruct (check_control_commands_disabled t_demo hw_ok control self E)
      as (_ & Lit & Dark).
    split; assumption.
  - intros clk env Ec Due Pos out. subst out control.
    unfold run_iteration.
    set (self1 := match action env with Some _ => _ | None => _ end).
    assert (P1 : exists r,
               snd (Fade.update (t_fade_update clk) (fade_controller self1))
               = Ok r).
    { assert (P : Fade.fading (fade_controller self1) = false
                  \/ Fade.fade_duration (fade_controller self1) > 0).
      { subst self1. unfold fade_can_update in Pos.
        destruct (action env) as [a|]; [|exact Pos].
        destruct (String.eqb a "fade_in"); [right; cbn; lra|].
        destruct (String.eqb a "fade_out"); [right; cbn; lra | exact Pos]. }
      destruct P as [P|P].
      - rewrite (update_idle _ _ P). now exists None.
      - destruct (update_positive_duration _ (t_fade_update clk) P)
          as (r & Er & _).
        now exists r. }
    assert (L1 : last_control_check self1 = last_control_check self).
    { subst self1. destruct (action env) as [a|]; [|reflexivity].
      destruct (String.eqb a "fade_in"); [reflexivity|].
      destruct (String.eqb a "fade_out"); reflexivity. }
    assert (U1 : effect_updates self1 = effect_updates self).
    { subst self1. destruct (action env) as [a|]; [|reflexivity].
      destruct (String.eqb a "fade_in"); [reflexivity|].
      destruct (String.eqb a "fade_out"); reflexivity. }
    clearbody self1.
    destruct P1 as [r Er].
    destruct (Fade.update (t_fade_update clk) (fade_controller self1))
      as [fc res]. cbn [snd] in Er. subst res.
    set (self2 := match r with
                  | Some b => set_brightness_multiplier b _
                  | None => _
                  end).
    assert (L2 : last_control_check self2 = last_control_check self)
      by (subst self2; destruct r; exact L1).
    assert (U2 : effect_updates self2 = effect_updates self)
      by (subst self2; destruct r; exact U1).
    clearbody self2. rewrite L2. rewrite Rgtb_true by lra.
    pose proof (check_control_commands_disabled_dark (t_demo_start clk)
                  (hw_ok env) (Controller.control env) self2 E) as B3.
    destruct (check_control_commands_disabled (t_demo_start clk)
                (hw_ok env) (Controller.control env) self2 E) as (U3 & _).
    destruct (check_control_commands (t_demo_start clk) (hw_ok env)
                (Controller.control env) self2) as [self3 written].
    cbn [fst] in B3, U3.
    set (self4 := if Rgtb _ (5 / 10) then _ else _).
    assert (B4 : brightness_multiplier self4 <= 0)
      by (subst self4; destruct (Rgtb _ _); exact B3).
    assert (U4 : effect_updates self4 = effect_updates self)
      by (subst self4; destruct (Rgtb _ _); cbn; congruence).
    clearbody self4.
    pose proof (update_demo_mode_brightness (t_demo_update clk) self4) as Hb.
    pose proof (update_demo_mode_effect_updates (t_demo_update clk) self4)
      as Hu.
    destruct (update_demo_mode (t_demo_update clk) self4) as [s' [u|e]];
      cbn [fst] in *.
    + rewrite update_effect_dark by lra. cbn. split; [lra | congruence].
    + split; [lra | congruence].
Qed.

Lemma disable_forces_dark_witness :
  (brightness_multiplier
     (fst (check_control_commands 0 true disabled_document lit_controller))
   = 0
   /\ raw_bot
        (fst (check_control_commands 0 true disabled_document lit_controller))
      = raw_bot lit_controller ++ [turn_off_call])
  /\ brightness_multiplier
       (fst (run_iteration fade_in_clock fade_in_environment lit_controller))
     <= 0.
Proof.
  destruct (disable_forces_dark lit_controller disabled_document eq_refl)
    as [H I].
  split.
  - destruct (H 0 true) as [L _]. apply L.
    assert (B : brightness_multiplier lit_controller = 1) by reflexivity.
    rewrite B. lra.
  - apply (I fade_in_clock fade_in_environment).
    + reflexivity.
    + assert (C : last_control_check lit_controller = 0) by reflexivity.
      rewrite C. unfold control_check_interval.
      cbn [loop_start fade_in_clock]. lra.
    + left. reflexivity.
Defined.

End ControllerFacts.

(** * Further properties of the code *)

(** ** Truncation *)

Lemma py_int_nonneg_spec (x : R) :
  0 <= x -> IZR (py_int x) <= x < IZR (py_int x) + 1.
Proof.
  intros H. unfold py_int. destruct (Rle_dec 0 x) as [_|]; [|lra].
  destruct (base_Int_part x). lra.
Qed.

Lemma py_int_nonneg (x : R) : 0 <= x -> (0 <= py_int x)%Z.
Proof.
  intros H. destruct (py_int_nonneg_spec x H) as [_ U].
  assert (L : IZR (-1) < IZR (py_int x)) by lra.
  apply lt_IZR in L. lia.
Qed.

Lemma py_int_le_bound (x : R) (n : Z) :
  0 <= x <= IZR n -> (0 <= py_int x <= n)%Z.
Proof.
  intros [L U]. split; [now apply py_int_nonneg|].
  destruct (py_int_nonneg_spec x L) as [A _].
  apply le_IZR. lra.
Qed.

Lemma py_int_monotone (x y : R) :
  0 <= x <= y -> (py_int x <= py_int y)%Z.
Proof.
  intros [L U].
  destruct (py_int_nonneg_spec x L) as [A _].
  destruct (py_int_nonneg_spec y) as [_ B]; [lra|].
  assert (H : IZR (py_int x) < IZR (py_int y + 1)) by (rewrite plus_IZR; lra).
  apply lt_IZR in H. lia.
Qed.

(** ** The helpers of the randomness module *)

Section RandomnessHelperFacts.
Import Randomness.

(** X1.  With [base_count <= max_leds] and a randomness in [1,5] the LED
    count lies between [base_count] and [max_leds], is [base_count] at
    randomness 1 and [max_leds] at randomness 5, and does not decrease when
    the randomness grows. *)
Theorem led_count_between_base_and_max
    (base_count max_leds : Z) (randomness : R) :
  (base_count <= max_leds)%Z -> 1 <= randomness <= 5 ->
  (base_count <= get_led_count_for_randomness base_count randomness max_leds
   <= max_leds)%Z
  /\ get_led_count_for_randomness base_count 1 max_leds = base_count
  /\ get_led_count_for_randomness base_count 5 max_leds = max_leds
  /\ (forall randomness', randomness <= randomness' <= 5 ->
        (get_led_count_for_randomness base_count randomness max_leds
         <= get_led_count_for_randomness base_count randomness' max_leds)%Z).
Proof.
  intros B [L U]. unfold get_led_count_for_randomness.
  assert (D : 0 <= IZR (max_leds - base_count)) by (apply IZR_le; lia).
  assert (P : forall r, 1 <= r <= 5 ->
                0 <= IZR (max_leds - base_count) * ((r - 1) / 4)
                <= IZR (max_leds - base_count)).
  { intros r [Lr Ur]. split; [apply Rmult_le_pos; lra|]. nra. }
  split; [|split; [|split]].
  - destruct (py_int_le_bound _ _ (P randomness (conj L U))). lia.
  - replace (IZR (max_leds - base_count) * ((1 - 1) / 4)) with 0 by lra.
    rewrite py_int_zero. lia.
  - replace (IZR (max_leds - base_count) * ((5 - 1) / 4))
      with (IZR (max_leds - base_count)) by lra.
    rewrite py_int_IZR. lia.
  - intros r' [L' U'].
    assert (M : (py_int (IZR (max_leds - base_count) * ((randomness - 1) / 4))
                 <= py_int (IZR (max_leds - base_count)
                            * ((r' - 1) / 4)))%Z).
    { apply py_int_monotone. split; [apply P; lra|].
      apply Rmult_le_compat_l; lra. }
    lia.
Qed.

Lemma led_count_between_base_and_max_witness :
  (2 <= get_led_count_for_randomness 2 3 6 <= 6)%Z.
Proof.
  apply (led_count_between_base_and_max 2 6 3); [lia | lra].
Defined.

(** X2.  For a base probability in [0,1], a randomness in [1,5] and a draw
    in [0,1): a draw below the base probability triggers, a trigger means
    the draw is below twice the base probability, at randomness 1 the effect
    triggers exactly when the draw is below the base probability, and a
    draw that triggers still triggers at any higher randomness. *)
Theorem trigger_probability_scales
    (draw base_probability randomness : R) :
  0 <= base_probability <= 1 -> 1 <= randomness <= 5 -> 0 <= draw < 1 ->
  (draw < base_probability ->
   should_trigger_effect draw base_probability randomness = true)
  /\ (should_trigger_effect draw base_probability randomness = true ->
      draw < 2 * base_probability)
  /\ (should_trigger_effect draw base_probability 1 = true
      <-> draw < base_probability)
  /\ (forall randomness', randomness <= randomness' ->
        should_trigger_effect draw base_probability randomness = true ->
        should_trigger_effect draw base_probability randomness' = true).
Proof.
  intros [B0 B1] [L U] [D0 D1]. unfold should_trigger_effect.
  assert (S : forall r, 1 <= r ->
                base_probability <= base_probability * (1 + (r - 1) / 4))
    by (intros r Hr; nra).
  split; [|split; [|split]].
  - intros H. apply Rltb_true. pose proof (S randomness L).
    destruct (Rmin_cases (base_probability * (1 + (randomness - 1) / 4)) 1)
      as [[_ ->] | [_ ->]]; lra.
  - unfold Rltb. destruct (Rlt_dec _ _) as [H|]; [|discriminate].
    intros _.
    destruct (Rmin_cases (base_probability * (1 + (randomness - 1) / 4)) 1)
      as [[_ E] | [E' E]]; rewrite E in H; nra.
  - replace (base_probability * (1 + (1 - 1) / 4)) with base_probability
      by lra.
    rewrite Rmin_left by lra. unfold Rltb.
    destruct (Rlt_dec draw base_probability); split; intros;
      try reflexivity; try discriminate; try lra.
  - intros r' Hr. unfold Rltb.
    destruct (Rlt_dec draw _) as [H|]; [|discriminate]. intros _.
    destruct (Rlt_dec draw _) as [|N]; [reflexivity|]. exfalso. apply N.
    assert (M : base_probability * (1 + (randomness - 1) / 4)
                <= base_probability * (1 + (r' - 1) / 4)) by nra.
    destruct (Rmin_cases (base_probability * (1 + (randomness - 1) / 4)) 1)
      as [[E' E] | [E' E]]; rewrite E in H;
      destruct (Rmin_cases (base_probability * (1 + (r' - 1) / 4)) 1)
        as [[_ ->] | [_ ->]]; lra.
Qed.

Lemma trigger_probability_scales_witness :
  should_trigger_effect (3 / 10) (1 / 5) 1 = true <-> 3 / 10 < 1 / 5.
Proof.
  apply (trigger_probability_scales (3 / 10) (1 / 5) 1); lra.
Defined.

(** X3.  For a randomness in [1,5] and a draw within the jitter amount, the
    jittered speed differs from the base speed by at most half of it; at
    randomness 1 the speed is returned unchanged. *)
Theorem timing_jitter_within_half
    (draw base_speed randomness : R) :
  1 <= randomness <= 5 ->
  - jitter_amount randomness <= draw <= jitter_amount randomness ->
  Rabs (apply_timing_jitter draw base_speed randomness - base_speed)
  <= Rabs base_speed * (1 / 2)
  /\ (randomness = 1 ->
      apply_timing_jitter draw base_speed randomness = base_speed).
Proof.
  intros [L U] [D0 D1]. unfold apply_timing_jitter, jitter_amount in *.
  split.
  - replace (base_speed * (1 + draw) - base_speed) with (base_speed * draw)
      by lra.
    rewrite Rabs_mult. apply Rmult_le_compat_l; [apply Rabs_pos|].
    apply Rabs_le. lra.
  - intros ->. assert (draw = 0) by lra. subst. lra.
Qed.

Lemma timing_jitter_within_half_witness :
  Rabs (apply_timing_jitter (1 / 4) 2 3 - 2) <= Rabs 2 * (1 / 2).
Proof.
  apply (timing_jitter_within_half (1 / 4) 2 3); unfold jitter_amount; lra.
Defined.

End RandomnessHelperFacts.

(** ** The two randomness formulas *)

Section RandomnessAgreement.
Import ControllerState.



End RandomnessAgreement.

(** ** The schedule window, continued *)

Section WindowFacts.
Import Scheduler.
Local Open Scope Z_scope.

Lemma is_within_schedule_instants (self : Scheduler) (wall t : dtime) :
  dtime_valid (start_time self) -> dtime_valid (end_time self) ->
  dtime_valid t ->
  is_within_schedule self wall (Some t) = true <->
  (since_midnight (start_time self) <= since_midnight (end_time self)
   /\ since_midnight (start_time self) <= since_midnight t
                                       < since_midnight (end_time self))
  \/ (since_midnight (end_time self) < since_midnight (start_time self)
      /\ (since_midnight (start_time self) <= since_midnight t
          \/ since_midnight t < since_midnight (end_time self))).
Proof.
  intros Hs He Ht. unfold is_within_schedule, dtime_ge.
  destruct (dtime_le (start_time self) (end_time self)) eqn:L.
  - apply (dtime_le_since_midnight _ _ Hs He) in L.
    rewrite andb_true_iff, (dtime_le_since_midnight _ _ Hs Ht),
      (dtime_lt_since_midnight _ _ Ht He). lia.
  - apply (dtime_le_false_since_midnight _ _ Hs He) in L.
    rewrite orb_true_iff, (dtime_le_since_midnight _ _ Hs Ht),
      (dtime_lt_since_midnight _ _ Ht He). lia.
Qed.

(** X5.  Swapping the start and the end of a window whose ends differ gives
    the complementary window: a well-formed time is inside exactly one of
    the two.  A window whose start equals its end contains no time. *)
Theorem swapped_window_is_complement
    (on on' : bool) (a b wall t : dtime) :
  dtime_valid a -> dtime_valid b -> dtime_valid t ->
  (since_midnight a <> since_midnight b ->
   is_within_schedule (mk_Scheduler on' b a) wall (Some t)
   = negb (is_within_schedule (mk_Scheduler on a b) wall (Some t)))
  /\ (since_midnight a = since_midnight b ->
      is_within_schedule (mk_Scheduler on a b) wall (Some t) = false).
Proof.
  intros Ha Hb Ht.
  pose proof (is_within_schedule_instants (mk_Scheduler on a b) wall t
                Ha Hb Ht) as F.
  pose proof (is_within_schedule_instants (mk_Scheduler on' b a) wall t
                Hb Ha Ht) as G.
  cbn [start_time end_time] in F, G.
  split; intros N.
  - destruct (is_within_schedule (mk_Scheduler on a b) wall (Some t));
      destruct (is_within_schedule (mk_Scheduler on' b a) wall (Some t));
      cbn [negb]; try reflexivity; exfalso.
    + assert (X : true = true) by reflexivity.
      pose proof (proj1 F X). pose proof (proj1 G X). lia.
    + assert (P : since_midnight a < since_midnight b
                  \/ since_midnight b < since_midnight a) by lia.
      destruct P as [P|P].
      * destruct (Z.lt_ge_cases (since_midnight t) (since_midnight a)) as [Q|Q].
        -- assert (X : false = true) by (apply G; lia). discriminate.
        -- destruct (Z.lt_ge_cases (since_midnight t) (since_midnight b))
             as [Q'|Q'].
           ++ assert (X : false = true) by (apply F; lia). discriminate.
           ++ assert (X : false = true) by (apply G; lia). discriminate.
      * destruct (Z.lt_ge_cases (since_midnight t) (since_midnight b)) as [Q|Q].
        -- assert (X : false = true) by (apply F; lia). discriminate.
        -- destruct (Z.lt_ge_cases (since_midnight t) (since_midnight a))
             as [Q'|Q'].
           ++ assert (X : false = true) by (apply G; lia). discriminate.
           ++ assert (X : false = true) by (apply F; lia). discriminate.
  - destruct (is_within_schedule (mk_Scheduler on a b) wall (Some t));
      [|reflexivity].
    assert (X : true = true) by reflexivity. pose proof (proj1 F X). lia.
Qed.

Lemma swapped_window_is_complement_witness :
  is_within_schedule night_window (hm 0 0) (Some (hms 12 30 15))
  = negb (is_within_schedule day_window (hm 0 0) (Some (hms 12 30 15))).
Proof.
  assert (V7 : dtime_valid (hm 7 0)) by (unfold dtime_valid; cbn; lia).
  assert (V20 : dtime_valid (hm 20 0)) by (unfold dtime_valid; cbn; lia).
  assert (Vt : dtime_valid (hms 12 30 15)) by (unfold dtime_valid; cbn; lia).
  destruct (swapped_window_is_complement true true (hm 7 0) (hm 20 0)
              (hm 0 0) (hms 12 30 15) V7 V20 Vt) as [H _].
  apply H. cbn. lia.
Defined.

End WindowFacts.

(** ** The scheduler's state machine *)

Section MachineFacts.
Import Scheduler ScheduleMachine.

Variable int_of_str : string -> option Z.

Lemma reload_unchanged (mtime : R) (f : ConfigFile) (self : Machine) :
  mtime <= config_mtime self ->
  reload_config_if_changed int_of_str mtime f self = (self, false).
Proof.
  intros H. unfold reload_config_if_changed. now rewrite Rgtb_false.
Qed.

(** A due update whose override has not expired, with the configuration
    file untouched. *)
Lemma update_ordinary (rd : Readings) (self : Machine) :
  now rd - last_check self >= check_interval self ->
  current_mtime rd <= config_mtime self ->
  override_expired (now rd) (state self) = false ->
  update int_of_str rd self =
  let self0 := set_last_check (now rd) self in
  let want := should_lights_be_on (now_a rd) (wall_a rd) self in
  if want && negb (is_on (state self)) then
    (set_state (set_schedule_state ON (state self)) self0,
     Some "fade_in"%string)
  else if negb want && is_on (state self) then
    (set_state (set_schedule_state OFF (state self)) self0,
     Some "fade_out"%string)
  else (self0, None).
Proof.
  intros D M E. unfold update. rewrite Rltb_false by lra.
  rewrite reload_unchanged by exact M. cbn [fst].
  destruct self as [cfg st mt lc ci]. cbn in *. rewrite E. reflexivity.
Qed.

(** X6.  A due update whose override has not expired leaves the state on
    exactly when the lights should be on, and reports a fade exactly when
    that changed the state: "fade_in" from off to on, "fade_out" from on to
    off, nothing otherwise.  A further due update that finds the same
    answer reports nothing. *)
Theorem update_reports_one_edge (rd : Readings) (self : Machine) :
  now rd - last_check self >= check_interval self ->
  current_mtime rd <= config_mtime self ->
  override_expired (now rd) (state self) = false ->
  let want := should_lights_be_on (now_a rd) (wall_a rd) self in
  let out := update int_of_str rd self in
  is_on (state (fst out)) = want
  /\ (snd out = None <-> is_on (state self) = want)
  /\ (snd out = Some "fade_in"%string
      <-> is_on (state self) = false /\ want = true)
  /\ (snd out = Some "fade_out"%string
      <-> is_on (state self) = true /\ want = false)
  /\ (forall rd',
        now rd' - now rd >= check_interval self ->
        current_mtime rd' <= config_mtime self ->
        override_expired (now rd') (state (fst out)) = false ->
        should_lights_be_on (now_a rd') (wall_a rd') (fst out) = want ->
        snd (update int_of_str rd' (fst out)) = None).
Proof.
  intros D M E want out.
  assert (U := update_ordinary rd self D M E). fold want in U.
  assert (A : is_on (state (fst out)) = want
              /\ last_check (fst out) = now rd
              /\ check_interval (fst out) = check_interval self
              /\ config_mtime (fst out) = config_mtime self).
  { subst out. rewrite U. cbv zeta.
    destruct want eqn:W, (is_on (state self)) eqn:O; cbn; auto. }
  destruct A as (A1 & A2 & A3 & A4).
  split; [exact A1|].
  split; [|split; [|split]].
  - subst out. rewrite U. cbv zeta.
    destruct want, (is_on (state self)); cbn; split; intros;
      try reflexivity; try discriminate.
  - subst out. rewrite U. cbv zeta.
    destruct want, (is_on (state self)); cbn; split;
      try (intros [? ?]); intros; try (split; reflexivity);
      try reflexivity; try discriminate.
  - subst out. rewrite U. cbv zeta.
    destruct want, (is_on (state self)); cbn; split;
      try (intros [? ?]); intros; try (split; reflexivity);
      try reflexivity; try discriminate.
  - intros rd' D' M' E' W'.
    rewrite (update_ordinary rd' (fst out)); [|rewrite A2, A3; lra
                                              |rewrite A4; exact M'
                                              |exact E'].
    cbv zeta. rewrite W', A1.
    destruct want; reflexivity.
Qed.

(** X7.  After a due update, whatever it did, an update made before the
    check interval has passed again reports nothing and leaves the
    scheduler as it is. *)
Theorem update_is_rate_limited (rd rd' : Readings) (self : Machine) :
  now rd - last_check self >= check_interval self ->
  now rd' - now rd < check_interval self ->
  update int_of_str rd' (fst (update int_of_str rd self))
  = (fst (update int_of_str rd self), None).
Proof.
  intros D L.
  assert (A : last_check (fst (update int_of_str rd self)) = now rd
              /\ check_interval (fst (update int_of_str rd self))
                 = check_interval self).
  { unfold update. rewrite Rltb_false by lra.
    unfold reload_config_if_changed, clear_override.
    destruct self as [cfg st mt lc ci]. cbn [config_mtime].
    repeat match goal with
           | |- context [if ?b then _ else _] => destruct b
           end; cbn; split; reflexivity. }
  destruct A as [A1 A2].
  unfold update at 1. rewrite A1, A2. now rewrite Rltb_true.
Qed.

(** While the override set by [set_override] runs, it alone decides. *)
Lemma should_lights_be_on_overridden
    (t d : R) (turn_on : bool) (now : R) (wall : dtime) (self : Machine) :
  enabled (config self) = true -> t + d <> 0 -> now < t + d ->
  should_lights_be_on now wall (set_override t turn_on d self) = turn_on.
Proof.
  intros En NZ L. unfold should_lights_be_on, set_override, override_active.
  cbn. rewrite En. cbn [negb].
  rewrite Reqb_false by exact NZ. rewrite Rltb_true by exact L.
  destruct turn_on; reflexivity.
Qed.

(** X8.  On an enabled schedule, from [set_override] until the override
    ends the lights should be on exactly when the override says so,
    whatever the window, and a due update reports no fade and keeps the
    override: the scheduler itself never turns an override into a
    transition. *)
Theorem override_decides_and_is_silent
    (t d : R) (turn_on : bool) (self : Machine) :
  enabled (config self) = true -> t + d <> 0 ->
  (forall now wall,
     now < t + d ->
     should_lights_be_on now wall (set_override t turn_on d self) = turn_on)
  /\ (forall rd,
        now rd - last_check self >= check_interval self ->
        current_mtime rd <= config_mtime self ->
        now rd < t + d -> now_a rd < t + d ->
        update int_of_str rd (set_override t turn_on d self)
        = (set_last_check (now rd) (set_override t turn_on d self), None)).
Proof.
  intros En NZ. split.
  - intros now wall L. now apply should_lights_be_on_overridden.
  - intros rd D M L La.
    rewrite update_ordinary; [|exact D | exact M |].
    + cbv zeta. rewrite should_lights_be_on_overridden by assumption.
      destruct turn_on; reflexivity.
    + unfold override_expired, set_override. cbn.
      rewrite Rgeb_false by exact L. apply andb_false_r.
Qed.

(** X9.  With the schedule disabled the lights should always be on and the
    boot behaviour is "fade_in"; an override that forces them off is not
    honoured: the next due update puts the state back to on and reports
    "fade_in", while the override time stays recorded. *)
Theorem disabled_schedule_ignores_override (self : Machine) :
  enabled (config self) = false ->
  (forall now wall,
     should_lights_be_on now wall self = true
     /\ get_boot_behavior now wall self = "fade_in"%string)
  /\ (forall t d rd,
        now rd - last_check self >= check_interval self ->
        current_mtime rd <= config_mtime self ->
        now rd < t + d ->
        let out := update int_of_str rd (set_override t false d self) in
        snd out = Some "fade_in"%string
        /\ state_of (state (fst out)) = ON
        /\ override_until (state (fst out)) = Some (t + d)).
Proof.
  intros En. split.
  - intros now wall. unfold get_boot_behavior, should_lights_be_on.
    rewrite En. split; reflexivity.
  - intros t d rd D M L out. subst out.
    rewrite update_ordinary; [|exact D | exact M |].
    + cbv zeta. unfold should_lights_be_on. cbn [config set_override set_state].
      rewrite En. cbn. repeat split.
    + unfold override_expired, set_override. cbn.
      rewrite Rgeb_false by exact L. apply andb_false_r.
Qed.

(** Without an override the answer depends on the configuration and the
    time of day only. *)
Lemma should_lights_be_on_no_override
    (now now' : R) (wall : dtime) (self self' : Machine) :
  override_until (state self) = None ->
  override_until (state self') = None ->
  config self = config self' ->
  should_lights_be_on now wall self = should_lights_be_on now' wall self'.
Proof.
  intros O O' C. unfold should_lights_be_on, override_active.
  now rewrite O, O', C.
Qed.

(** X10.  A due update that finds the override expired always reports a
    fade, clears the override and sets the state from the window: "fade_in"
    with state on and brightness 1, or "fade_out" with state off and
    brightness 0 (the time of day being the same at both readings).  It
    reports "fade_in" even when the override had the lights on already. *)
Theorem expired_override_always_fades
    (u : R) (rd : Readings) (self : Machine) :
  override_until (state self) = Some u -> u <> 0 ->
  now rd - last_check self >= check_interval self ->
  current_mtime rd <= config_mtime self ->
  now rd >= u ->
  wall_b rd = wall_a rd ->
  let out := update int_of_str rd self in
  override_until (state (fst out)) = None
  /\ ((snd out = Some "fade_in"%string
       /\ state_of (state (fst out)) = ON
       /\ current_brightness (state (fst out)) = Some 1)
      \/ (snd out = Some "fade_out"%string
          /\ state_of (state (fst out)) = OFF
          /\ current_brightness (state (fst out)) = Some 0))
  /\ (snd out = Some "fade_in"%string
      <-> (enabled (config self) = false
           \/ is_within_schedule (config self) (wall_a rd)
                (Some (wall_a rd)) = true)).
Proof.
  intros O NZ D M Ex W out. subst out.
  unfold update. rewrite Rltb_false by lra.
  rewrite reload_unchanged by exact M. cbn [fst].
  assert (E : override_expired (now rd)
                (state (set_last_check (now rd) self)) = true).
  { unfold override_expired. cbn. rewrite O.
    rewrite Reqb_false by exact NZ. now rewrite Rgeb_true. }
  rewrite E. rewrite W.
  set (cleared := set_state (set_override_until None
                               (state (set_last_check (now rd) self)))
                    (set_last_check (now rd) self)).
  remember (negb (enabled (config self))
            || is_within_schedule (config self) (wall_a rd)
                 (Some (wall_a rd))) as w eqn:Hw.
  assert (S : forall n s', override_until (state s') = None ->
                config s' = config self ->
                should_lights_be_on n (wall_a rd) s' = w).
  { intros n s' O' C. unfold should_lights_be_on, override_active.
    rewrite O', C, Hw. destruct (enabled (config self)); reflexivity. }
  assert (I : w = true
              <-> (enabled (config self) = false
                   \/ is_within_schedule (config self) (wall_a rd)
                        (Some (wall_a rd)) = true)).
  { rewrite Hw. destruct (enabled (config self)),
      (is_within_schedule (config self) (wall_a rd) (Some (wall_a rd)));
      cbn; intuition discriminate. }
  clear Hw.
  unfold clear_override. fold cleared.
  rewrite (S (now_a rd) cleared) by reflexivity.
  destruct w; (rewrite S; [|reflexivity|reflexivity]); cbn.
  - split; [reflexivity|]. split; [left; repeat split|].
    split; intros; [now apply I | reflexivity].
  - split; [reflexivity|]. split; [right; repeat split|].
    split; [discriminate|]. intros H. apply I in H. discriminate.
Qed.

End MachineFacts.

Section MachineWitnesses.
Import Scheduler ScheduleMachine.

Lemma update_reports_one_edge_witness :
  snd (update int_of_digits (readings_at 100 (hm 12 0)) boot_machine)
  = Some "fade_in"%string.
Proof.
  destruct (update_reports_one_edge int_of_digits
              (readings_at 100 (hm 12 0)) boot_machine)
    as (_ & _ & H & _).
  - cbn. lra.
  - cbn. lra.
  - reflexivity.
  - apply H. split; reflexivity.
Defined.

Lemma update_is_rate_limited_witness :
  update int_of_digits (readings_at 130 (hm 12 0))
    (fst (update int_of_digits (readings_at 100 (hm 12 0)) boot_machine))
  = (fst (update int_of_digits (readings_at 100 (hm 12 0)) boot_machine),
     None).
Proof.
  apply (update_is_rate_limited int_of_digits); cbn; lra.
Defined.

Lemma override_decides_and_is_silent_witness :
  should_lights_be_on 200 (hm 12 0) (set_override 100 false 3600 boot_machine)
  = false.
Proof.
  destruct (override_decides_and_is_silent int_of_digits 100 3600 false
              boot_machine) as [H _].
  - reflexivity.
  - lra.
  - apply H. lra.
Defined.

Lemma disabled_schedule_ignores_override_witness :
  should_lights_be_on 200 (hm 23 0)
    (set_config (mk_Scheduler false (hm 7 0) (hm 20 0)) boot_machine)
  = true.
Proof.
  destruct (disabled_schedule_ignores_override int_of_digits
              (set_config (mk_Scheduler false (hm 7 0) (hm 20 0))
                 boot_machine)) as [H _].
  - reflexivity.
  - apply H.
Defined.

Lemma expired_override_always_fades_witness :
  override_until
    (state (fst (update int_of_digits (readings_at 200 (hm 12 0))
                   (set_override 100 true 60 boot_machine))))
  = None.
Proof.
  apply (expired_override_always_fades int_of_digits (100 + 60)
           (readings_at 200 (hm 12 0))
           (set_override 100 true 60 boot_machine)).
  - reflexivity.
  - lra.
  - cbn. lra.
  - cbn. lra.
  - cbn. lra.
  - reflexivity.
Defined.

End MachineWitnesses.

(** ** Parsing and printing the window *)

Section ParseFacts.
Import Scheduler ScheduleMachine.
Import Stdlib.Strings.Ascii.

Variable int_of_str : string -> option Z.

Lemma split_on_without_separator (sep : ascii) (s : string) :
  ~ In sep (list_ascii_of_string s) -> split_on sep s = [s].
Proof.
  induction s as [|c rest IH]; intros H; [reflexivity|].
  cbn [split_on]. cbn [list_ascii_of_string In] in H.
  destruct (Ascii.eqb c sep) eqn:E.
  - apply Ascii.eqb_eq in E. subst. exfalso. apply H. now left.
  - rewrite IH by (intros I; apply H; now right). reflexivity.
Qed.

Lemma hm_valid (h m : Z) :
  (0 <= h <= 23)%Z -> (0 <= m <= 59)%Z -> dtime_valid (hm h m).
Proof. intros. unfold dtime_valid, hm; cbn. lia. Qed.

(** X11.  [parse_time] never fails: whatever the text and whatever [int]
    makes of its parts, the result is a well-formed time on a whole minute.
    A text without a colon gives 07:00. *)
Theorem parse_time_is_total_and_valid (time_str : string) :
  dtime_valid (parse_time int_of_str time_str)
  /\ second (parse_time int_of_str time_str) = 0%Z
  /\ microsecond (parse_time int_of_str time_str) = 0%Z
  /\ (~ In ":"%char (list_ascii_of_string time_str) ->
      parse_time int_of_str time_str = hm 7 0).
Proof.
  assert (V7 : dtime_valid (hm 7 0)) by (apply hm_valid; lia).
  unfold parse_time. split; [|split; [|split]].
  - destruct (nth_error _ 0) as [p0|]; [|exact V7].
    destruct (nth_error _ 1) as [p1|]; [|exact V7].
    destruct (int_of_str p0) as [h|]; [|exact V7].
    destruct (int_of_str p1) as [m|]; [|exact V7].
    destruct (_ && _)%bool eqn:E; [|exact V7].
    apply hm_valid; lia.
  - destruct (nth_error _ 0) as [p0|]; [|reflexivity].
    destruct (nth_error _ 1) as [p1|]; [|reflexivity].
    destruct (int_of_str p0) as [h|]; [|reflexivity].
    destruct (int_of_str p1) as [m|]; [|reflexivity].
    destruct (_ && _)%bool; reflexivity.
  - destruct (nth_error _ 0) as [p0|]; [|reflexivity].
    destruct (nth_error _ 1) as [p1|]; [|reflexivity].
    destruct (int_of_str p0) as [h|]; [|reflexivity].
    destruct (int_of_str p1) as [m|]; [|reflexivity].
    destruct (_ && _)%bool; reflexivity.
  - intros H. rewrite (split_on_without_separator _ _ H). reflexivity.
Qed.

Lemma digit_is_not_colon (d : Z) :
  (0 <= d <= 9)%Z -> Ascii.eqb (digit d) ":"%char = false.
Proof.
  intros H.
  assert (C : (d = 0 \/ d = 1 \/ d = 2 \/ d = 3 \/ d = 4 \/ d = 5 \/ d = 6
               \/ d = 7 \/ d = 8 \/ d = 9)%Z) by lia.
  repeat (destruct C as [-> | C]; [reflexivity|]). subst. reflexivity.
Qed.

Lemma two_digits (n : Z) :
  (0 <= n <= 99)%Z -> (0 <= n / 10 <= 9)%Z /\ (0 <= n mod 10 <= 9)%Z.
Proof. intros H. Z.div_mod_to_equations. lia. Qed.

Lemma split_on_formatted (h m : Z) :
  (0 <= h <= 99)%Z -> (0 <= m <= 99)%Z ->
  split_on ":"%char (format_02d h ++ ":" ++ format_02d m)
  = [format_02d h; format_02d m].
Proof.
  intros Hh Hm. unfold format_02d. cbn [append split_on].
  destruct (two_digits h Hh) as [H1 H2], (two_digits m Hm) as [M1 M2].
  rewrite (digit_is_not_colon (h / 10) H1).
  rewrite (digit_is_not_colon (h mod 10) H2).
  rewrite (digit_is_not_colon (m / 10) M1).
  rewrite (digit_is_not_colon (m mod 10) M2).
  reflexivity.
Qed.

Hypothesis int_reads_two_digits :
  forall n, (0 <= n <= 59)%Z -> int_of_str (format_02d n) = Some n.

Lemma parse_time_formatted (h m : Z) :
  (0 <= h <= 23)%Z -> (0 <= m <= 59)%Z ->
  parse_time int_of_str (format_02d h ++ ":" ++ format_02d m) = hm h m.
Proof.
  intros Hh Hm. unfold parse_time.
  rewrite split_on_formatted by lia. cbn [nth_error].
  rewrite !int_reads_two_digits by lia.
  replace ((0 <=? h) && (h <=? 23) && (0 <=? m) && (m <=? 59))%Z%bool
    with true; [reflexivity|].
  symmetry. rewrite !andb_true_iff. repeat split; lia.
Qed.

(** X12.  Printing and parsing agree: when [int] reads the two-digit
    numbers, a scheduler whose window ends are well-formed times on whole
    minutes gets its own configuration back from the document that
    [get_config] prints. *)
Theorem get_config_round_trip (self : Machine) :
  dtime_valid (start_time (config self)) ->
  dtime_valid (end_time (config self)) ->
  second (start_time (config self)) = 0%Z ->
  microsecond (start_time (config self)) = 0%Z ->
  second (end_time (config self)) = 0%Z ->
  microsecond (end_time (config self)) = 0%Z ->
  configured int_of_str (get_config self) = config self.
Proof.
  destruct self as [[en [sh sm ss su] [eh em es eu]] st mt lc ci].
  unfold dtime_valid. cbn. intros Vs Ve -> -> -> ->.
  unfold configured, get_config.
  cbn [c_enabled c_start_time c_end_time config start_time end_time hour
       minute enabled].
  rewrite !parse_time_formatted by lia. reflexivity.
Qed.

End ParseFacts.

Section ParseWitnesses.
Import Scheduler ScheduleMachine.

Lemma int_of_digits_reads_two_digits (n : Z) :
  (0 <= n <= 59)%Z -> int_of_digits (format_02d n) = Some n.
Proof.
  intros H.
  assert (E : exists k, (k < 60)%nat /\ n = Z.of_nat k)
    by (exists (Z.to_nat n); lia).
  destruct E as (k & L & ->).
  do 60 (destruct k as [|k]; [reflexivity|]). lia.
Qed.

Lemma get_config_round_trip_witness :
  configured int_of_digits (get_config boot_machine) = config boot_machine.
Proof.
  assert (S : start_time (config boot_machine) = hm 7 0) by reflexivity.
  assert (E : end_time (config boot_machine) = hm 20 0) by reflexivity.
  apply (get_config_round_trip int_of_digits
           int_of_digits_reads_two_digits boot_machine);
    rewrite ?S, ?E; try reflexivity; unfold dtime_valid; cbn; lia.
Defined.

Lemma parse_time_is_total_and_valid_witness :
  parse_time int_of_digits "sunrise" = hm 7 0.
Proof.
  apply (proj2 (proj2 (proj2
           (parse_time_is_total_and_valid int_of_digits "sunrise")))).
  cbn. intuition discriminate.
Defined.


End ParseWitnesses.

(** ** The fade curve *)

Section FadeCurve.
Import Fade.

Lemma smooth_monotone (p q : R) :
  0 <= p -> p <= q -> q <= 1 -> smooth p <= smooth q.
Proof.
  intros P L Q. unfold smooth.
  pose proof PI_RGT_0 as Pi.
  assert (S : sin ((p - 1 / 2) * PI) <= sin ((q - 1 / 2) * PI)).
  { apply sin_incr_1; nra. }
  lra.
Qed.

Lemma smooth_start : smooth 0 = 0.
Proof.
  unfold smooth.
  replace ((0 - 1 / 2) * PI) with (- (PI / 2)) by lra.
  rewrite sin_neg, sin_PI2. lra.
Qed.

Lemma smooth_half : smooth (1 / 2) = 1 / 2.
Proof.
  unfold smooth.
  replace ((1 / 2 - 1 / 2) * PI) with 0 by lra.
  rewrite sin_0. lra.
Qed.

(** X13.  While a fade with a positive duration runs, the brightness moves
    one way only: of two updates, the later one reports a brightness at
    least as far towards the target.  The update at the start time reports
    the starting brightness, the update at half time the mean of the two
    ends. *)
Theorem fade_moves_towards_target
    (self : FadeController) (t1 t2 : R) :
  fading self = true -> fade_duration self > 0 ->
  fade_start self <= t1 -> t1 <= t2 ->
  (t2 - fade_start self) / fade_duration self < 1 ->
  exists b1 b2,
    snd (update t1 self) = Ok (Some b1)
    /\ snd (update t2 self) = Ok (Some b2)
    /\ (fade_from self <= fade_to self -> b1 <= b2)
    /\ (fade_to self <= fade_from self -> b2 <= b1)
    /\ (t1 = fade_start self -> b1 = fade_from self)
    /\ (t1 - fade_start self = fade_duration self / 2 ->
        b1 = (fade_from self + fade_to self) / 2).
Proof.
  intros F D S L P.
  set (d := fade_duration self) in *.
  set (p1 := (t1 - fade_start self) / d).
  set (p2 := (t2 - fade_start self) / d) in *.
  assert (H1 : 0 <= p1) by (unfold p1; apply Rmult_le_pos;
                            [lra | apply Rlt_le, Rinv_0_lt_compat; lra]).
  assert (H12 : p1 <= p2).
  { unfold p1, p2. apply Rmult_le_compat_r;
      [apply Rlt_le, Rinv_0_lt_compat; lra | lra]. }
  assert (N : fade_duration self <> 0) by (fold d; lra).
  rewrite (update_running t1 self F N) by (fold d; fold p1; lra).
  rewrite (update_running t2 self F N) by (fold d; fold p2; lra).
  fold d. fold p1. fold p2. cbn [snd].
  pose proof (smooth_monotone p1 p2 H1 H12 (Rlt_le _ _ P)) as M.
  do 2 eexists. split; [reflexivity|]. split; [reflexivity|].
  split; [|split; [|split]].
  - intros. nra.
  - intros. nra.
  - intros E. assert (Z : p1 = 0) by (unfold p1; rewrite E; lra).
    rewrite Z, smooth_start. lra.
  - intros E. assert (Z : p1 = 1 / 2).
    { unfold p1. rewrite E. unfold d. field. exact N. }
    rewrite Z, smooth_half. lra.
Qed.

Lemma fade_moves_towards_target_witness :
  exists b1 b2,
    snd (update 11 (start_fade 10 0 1 3 init)) = Ok (Some b1)
    /\ snd (update 12 (start_fade 10 0 1 3 init)) = Ok (Some b2)
    /\ (0 <= 1 -> b1 <= b2).
Proof.
  destruct (fade_moves_towards_target (start_fade 10 0 1 3 init) 11 12)
    as (b1 & b2 & A & B & C & _); try reflexivity; cbn; try lra.
  exists b1, b2. repeat split; assumption.
Defined.

End FadeCurve.

(** ** The health monitor, continued *)

Section HealthMore.
Import OledSync.

(** X14.  A check that is due answers from the file alone: a document
    stamped [T] is healthy up to an age of 5 seconds and unhealthy beyond,
    and a missing, unparseable or unreadable file is unhealthy.  The
    metrics of [get_system_metrics] are handed out exactly in the healthy
    case and are those of the document. *)
Theorem performed_check_follows_file
    (now T : R) (state : Telemetry) (self : OLEDSync) :
  due now self -> timestamp state = Some T ->
  (now - T <= 5 ->
   snd (check_oled_health now (Document state) self) = (true, Some state)
   /\ snd (get_system_metrics now (Document state) self)
      = Some (mk_SystemMetrics (cpu_percent state) (ram_percent state)
                (temperature state) (load_average state)))
  /\ (now - T > 5 ->
      snd (check_oled_health now (Document state) self)
      = (false, Some state)
      /\ snd (get_system_metrics now (Document state) self) = None)
  /\ (forall file, file = Missing \/ file = Unparseable \/ file = Unreadable ->
        snd (check_oled_health now file self) = (false, None)
        /\ snd (get_system_metrics now file self) = None).
Proof.
  intros D E.
  destruct (check_document_verdict now T state self D E) as [H U].
  destruct (check_no_document_verdict now self D) as (M1 & M2 & M3).
  assert (G : forall file v,
             snd (check_oled_health now file self) = v ->
             snd (get_system_metrics now file self)
             = if negb (fst v) then None
               else match snd v with
                    | None => None
                    | Some s =>
                      Some (mk_SystemMetrics (cpu_percent s) (ram_percent s)
                              (temperature s) (load_average s))
                    end).
  { intros file v <-. unfold get_system_metrics.
    destruct (check_oled_health now file self) as [s' [h [s|]]];
      destruct h; reflexivity. }
  split; [|split].
  - intros A. split; [now apply H|]. now rewrite (G _ _ (H A)).
  - intros A. split; [now apply U|]. now rewrite (G _ _ (U A)).
  - intros file [-> | [-> | ->]].
    + split; [exact M1|]. now rewrite (G _ _ M1).
    + split; [exact M2|]. now rewrite (G _ _ M2).
    + split; [exact M3|]. now rewrite (G _ _ M3).
Qed.

Lemma performed_check_follows_file_witness :
  snd (check_oled_health 12 (Document (stamped 10)) init)
  = (true, Some (stamped 10)).
Proof.
  destruct (performed_check_follows_file 12 10 (stamped 10) init)
    as (H & _).
  - unfold due. cbn. lra.
  - reflexivity.
  - apply H. lra.
Defined.

(** X15.  After an unhealthy verdict that was recorded, the first healthy
    check shows the recovery cue exactly until two seconds after that
    check; a later healthy check does not extend it. *)
Theorem recovery_cue_lasts_two_seconds
    (now now' T T' : R) (state state' : Telemetry)
    (seen : option Telemetry) (self : OLEDSync) :
  due now self -> timestamp state = Some T -> now - T <= 5 ->
  last_health_status self = Some (false, seen) ->
  now' - now >= check_interval self ->
  timestamp state' = Some T' -> now' - T' <= 5 ->
  let recovered := fst (check_oled_health now (Document state) self) in
  let later := fst (check_oled_health now' (Document state') recovered) in
  (forall t, is_showing_recovery_flash t recovered = true <-> t < now + 2)
  /\ (forall t, is_showing_recovery_flash t later = true <-> t < now + 2).
Proof.
  intros D E A L D' E' A' recovered later.
  assert (R1 : forall t,
             is_showing_recovery_flash t recovered = true <-> t < now + 2)
    by (intros t; now apply (check_arms_recovery now T state seen self)).
  split; [exact R1|].
  assert (F : oled_recovery_flash_until recovered = now + 2
              /\ last_health_status recovered = Some (true, Some state)
              /\ last_check_time recovered = now
              /\ check_interval recovered = check_interval self).
  { subst recovered. unfold due in D. unfold check_oled_health.
    rewrite Rltb_false by lra. rewrite E. unfold STALE_THRESHOLD.
    rewrite Rgtb_false by lra. cbn. rewrite L. cbn. repeat split. }
  destruct F as (F1 & F2 & F3 & F4).
  assert (K : oled_recovery_flash_until later = now + 2).
  { subst later.
    rewrite (check_healthy_keeps_window now' T' state' (Some state)
               recovered); try assumption.
    unfold due. rewrite F3, F4. lra. }
  intros t. unfold is_showing_recovery_flash. rewrite K.
  unfold Rltb. destruct (Rlt_dec t (now + 2)); split; intros;
    try reflexivity; try discriminate; try lra.
Qed.

Lemma recovery_cue_lasts_two_seconds_witness :
  is_showing_recovery_flash 16
    (fst (check_oled_health 15 (Document (stamped 15))
            (fst (check_oled_health 10 Missing init)))) = true.
Proof.
  assert (S : fst (check_oled_health 10 Missing init)
              = mk_OLEDSync (Some (false, None)) 10 5 0).
  { unfold check_oled_health, init. cbn. rewrite Rltb_false by lra.
    reflexivity. }
  rewrite S.
  destruct (recovery_cue_lasts_two_seconds 15 20 15 20 (stamped 15)
              (stamped 20) None (mk_OLEDSync (Some (false, None)) 10 5 0))
    as [H _]; try reflexivity; try (unfold due; cbn; lra); try (cbn; lra).
  apply H. lra.
Defined.

(** X16.  A check that fails to read or parse the file answers unhealthy
    but records nothing: every poll before the next due check repeats the
    verdict recorded earlier, which is healthy when none was recorded. *)
Theorem failed_read_is_not_remembered
    (now now' : R) (file file' : StateFile) (self : OLEDSync) :
  due now self -> file = Unparseable \/ file = Unreadable ->
  now' - now < check_interval self ->
  snd (check_oled_health now file self) = (false, None)
  /\ snd (check_oled_health now' file' (fst (check_oled_health now file self)))
     = match last_health_status self with
       | Some v => v
       | None => (true, None)
       end.
Proof.
  intros D F L. unfold due in D.
  assert (S : check_oled_health now file self
              = (set_last_check_time now self, (false, None))).
  { unfold check_oled_health. rewrite Rltb_false by lra.
    destruct F as [-> | ->]; reflexivity. }
  rewrite S. cbn [fst snd]. split; [reflexivity|].
  rewrite check_cached by (cbn; lra). reflexivity.
Qed.

Lemma failed_read_is_not_remembered_witness :
  snd (check_oled_health 12 Missing
         (fst (check_oled_health 10 Unparseable init)))
  = (true, None).
Proof.
  apply (failed_read_is_not_remembered 10 12 Unparseable Missing init).
  - unfold due. cbn. lra.
  - now left.
  - cbn. lra.
Defined.

End HealthMore.

(** ** The brightness wrapper, continued *)

Section WrapperRange.
Import ControllerState BrightnessWrapper.

Lemma scaled_channel_range (channel : Z) (brightness : R) :
  (0 <= channel)%Z -> 0 <= brightness <= 1 ->
  (0 <= py_int (IZR channel * brightness) <= channel)%Z.
Proof.
  intros C [L U]. apply py_int_le_bound.
  assert (0 <= IZR channel) by (apply IZR_le; lia). nra.
Qed.

(** X17.  With a brightness multiplier in [0,1], as [set_brightness] always
    leaves it, the wrapper only dims: each channel it forwards lies between
    0 and the channel it was given, so a colour within 0..255 stays within
    0..255 and passes the clamp of the hardware link unchanged.  At
    multiplier 1 the colour is forwarded as it is. *)
Theorem wrapper_only_dims
    (c : LightBarController) (led_id red green blue : Z) :
  0 <= brightness_multiplier c <= 1 ->
  (0 <= red <= 255)%Z -> (0 <= green <= 255)%Z -> (0 <= blue <= 255)%Z ->
  (forall b, 0 <= brightness_multiplier (Controller.set_brightness b c) <= 1)
  /\ (exists r g b,
        raw_bot (set_RGB led_id red green blue c)
        = raw_bot c ++ [set_RGB_call led_id r g b]
        /\ raw_bot (set_all_RGB red green blue c)
           = raw_bot c ++ [set_all_RGB_call r g b]
        /\ (0 <= r <= red)%Z /\ (0 <= g <= green)%Z /\ (0 <= b <= blue)%Z
        /\ CubeNano.clamp_byte r = r /\ CubeNano.clamp_byte g = g
        /\ CubeNano.clamp_byte b = b
        /\ (brightness_multiplier c = 1 ->
            r = red /\ g = green /\ b = blue)).
Proof.
  intros B R G Bl. split.
  - intros b. unfold Controller.set_brightness. cbn.
    destruct (Rmax_cases 0 (Rmin 1 b)) as [[H ->] | [H ->]];
      destruct (Rmin_cases 1 b) as [[H' E] | [H' E]]; rewrite ?E in *; lra.
  - pose proof (scaled_channel_range red _ (proj1 R) B) as Hr.
    pose proof (scaled_channel_range green _ (proj1 G) B) as Hg.
    pose proof (scaled_channel_range blue _ (proj1 Bl) B) as Hb.
    do 3 eexists. split; [reflexivity|]. split; [reflexivity|].
    split; [exact Hr|]. split; [exact Hg|]. split; [exact Hb|].
    unfold CubeNano.clamp_byte.
    split; [lia|]. split; [lia|]. split; [lia|].
    intros ->. rewrite !Rmult_1_r, !py_int_IZR. repeat split.
Qed.

Lemma wrapper_only_dims_witness :
  exists r g b,
    raw_bot (set_RGB 3 255 128 0 Controller.lit_controller)
    = raw_bot Controller.lit_controller ++ [set_RGB_call 3 r g b]
    /\ (0 <= r <= 255)%Z.
Proof.
  assert (B : brightness_multiplier Controller.lit_controller = 1)
    by reflexivity.
  destruct (wrapper_only_dims Controller.lit_controller 3 255 128 0)
    as (_ & r & g & b & E & _ & Hr & _); try lia; [rewrite B; lra|].
  exists r, g, b. split; assumption.
Defined.

End WrapperRange.

(** ** The hardware link *)

Section LinkFacts.
Import CubeNano.

Lemma write_attempts_spec (n : nat) (register value : Z) (bus : Bus) :
  let out := write_attempts n register value bus in
  succeeds (fst out) = succeeds bus
  /\ (attempts bus <= attempts (fst out) <= attempts bus + n)%nat
  /\ snd out <> ValueError
  /\ (snd out = Returned ->
      n = 0%nat /\ fst out = bus
      \/ succeeds bus (pred (attempts (fst out))) = true
         /\ (forall k, (attempts bus <= k < pred (attempts (fst out)))%nat ->
               succeeds bus k = false)
         /\ (attempts bus < attempts (fst out))%nat
         /\ written (fst out) = written bus ++ [(register, value)])
  /\ (snd out = I2CFailure ->
      attempts (fst out) = (attempts bus + n)%nat
      /\ (forall k, (attempts bus <= k < attempts bus + n)%nat ->
            succeeds bus k = false)
      /\ written (fst out) = written bus).
Proof.
  revert bus. induction n as [|n IH]; intros bus; cbn [write_attempts].
  - cbn. repeat split; try lia; try discriminate. intros _. now left.
  - unfold write_byte_data.
    destruct (succeeds bus (attempts bus)) eqn:Hs; cbn [fst snd].
    + cbn. repeat split; try lia; try discriminate.
      intros _. right. repeat split; try assumption; try lia.
    + destruct n as [|n'].
      * cbn. repeat split; try lia; try discriminate.
        intros k Hk. assert (k = attempts bus) by lia. now subst.
      * specialize (IH (mk_Bus (succeeds bus) (S (attempts bus))
                          (written bus))).
        cbv zeta in IH. cbn [succeeds attempts written] in IH.
        destruct IH as (I1 & I2 & I3 & I4 & I5).
        split; [exact I1|]. split; [lia|]. split; [exact I3|]. split.
        -- intros R. destruct (I4 R) as [[X _] | (A & B & C & D)];
             [discriminate|].
           right. repeat split; try assumption; try lia.
           intros k Hk. destruct (Nat.eq_dec k (attempts bus)) as [->|];
             [assumption | apply B; lia].
        -- intros F. destruct (I5 F) as (A & B & C).
           repeat split; try assumption; try lia.
           intros k Hk. destruct (Nat.eq_dec k (attempts bus)) as [->|];
             [assumption | apply B; lia].
Qed.

(** X18.  A register write tries the bus at most three times.  It returns
    as soon as one try succeeds, having written the value once; when all
    three tries fail it raises the I2C failure and nothing is written. *)
Theorem write_register_retries_three_times
    (register value : Z) (bus : Bus) :
  let out := _write_register register value bus in
  (attempts bus < attempts (fst out) <= attempts bus + 3)%nat
  /\ (snd out = Returned
      <-> exists k, (k < 3)%nat /\ succeeds bus (attempts bus + k) = true)
  /\ (snd out = Returned ->
      written (fst out) = written bus ++ [(register, value)]
      /\ succeeds bus (pred (attempts (fst out))) = true)
  /\ (snd out <> Returned ->
      snd out = I2CFailure
      /\ attempts (fst out) = (attempts bus + 3)%nat
      /\ written (fst out) = written bus).
Proof.
  intros out. subst out. unfold _write_register.
  destruct (write_attempts_spec 3 register value bus)
    as (_ & A & NV & R & F).
  set (out := write_attempts 3 register value bus) in *.
  assert (F' : snd out = I2CFailure ->
               forall k, (k < 3)%nat -> succeeds bus (attempts bus + k) = false)
    by (intros H k Hk; apply (proj1 (proj2 (F H))); lia).
  destruct (snd out) eqn:O.
  - destruct (R eq_refl) as [[X _] | (Hs & N & L & W)]; [discriminate|].
    split; [lia|]. split; [|split].
    + split; [|reflexivity]. intros _.
      exists (pred (attempts (fst out)) - attempts bus)%nat.
      split; [lia|].
      replace (attempts bus + (pred (attempts (fst out)) - attempts bus))%nat
        with (pred (attempts (fst out))) by lia.
      exact Hs.
    + intros _. split; assumption.
    + intros X. now contradiction X.
  - now contradiction NV.
  - destruct (F eq_refl) as (E & N & W).
    split; [lia|]. split; [|split].
    + split; [discriminate|]. intros (k & Hk & Hs).
      rewrite (F' eq_refl k Hk) in Hs. discriminate.
    + discriminate.
    + intros _. repeat split; assumption.
Qed.

Lemma write_all_spec (writes : list (Z * Z)) (bus : Bus) :
  let out := write_all writes bus in
  succeeds (fst out) = succeeds bus
  /\ (attempts (fst out) <= attempts bus + 3 * List.length writes)%nat
  /\ snd out <> ValueError
  /\ (exists n, written (fst out) = written bus ++ firstn n writes
                /\ (snd out = Returned -> firstn n writes = writes)).
Proof.
  revert bus. induction writes as [|[r v] rest IH]; intros bus.
  - cbn. repeat split; try lia; try discriminate.
    exists 0%nat. split; [now rewrite app_nil_r | reflexivity].
  - cbn [write_all].
    destruct (write_attempts_spec 3 r v bus) as (Hs & A & NV & R & F).
    unfold _write_register.
    destruct (write_attempts 3 r v bus) as [bus' o]. cbn [fst snd] in *.
    destruct o.
    + destruct (R eq_refl) as [[X _] | (_ & _ & _ & W)]; [discriminate|].
      specialize (IH bus'). cbv zeta in IH.
      destruct IH as (I1 & I2 & I3 & n & I4 & I5).
      split; [congruence|]. split; [cbn [List.length]; lia|].
      split; [exact I3|].
      exists (S n). cbn [firstn]. split.
      * rewrite I4, W, <- app_assoc. reflexivity.
      * intros X. now rewrite (I5 X).
    + now contradiction NV.
    + destruct (F eq_refl) as (_ & _ & W). cbn [fst snd].
      split; [exact Hs|]. split; [cbn [List.length]; lia|].
      split; [discriminate|].
      exists 0%nat. cbn [firstn]. split; [now rewrite app_nil_r|].
      discriminate.
Qed.

(** X19.  [set_RGB] refuses an LED index other than 0..13 and 255 before
    touching the bus.  Otherwise it tries the bus at most twelve times and
    what reaches the registers is a prefix of: the LED index, then red,
    green and blue, each clamped to 0..255; when it returns, all four were
    written. *)
Theorem set_RGB_writes_clamped_colour
    (led_id red green blue : Z) (bus : Bus) :
  let out := set_RGB led_id red green blue bus in
  let colour :=
    [(REG_LED_SELECT, led_id); (REG_RED, clamp_byte red);
     (REG_GREEN, clamp_byte green); (REG_BLUE, clamp_byte blue)] in
  (led_id <> 255 /\ ~ (0 <= led_id < 14) -> out = (bus, ValueError))%Z
  /\ (led_id = 255 \/ 0 <= led_id < 14 ->
      snd out <> ValueError
      /\ (attempts (fst out) <= attempts bus + 12)%nat
      /\ (exists n, written (fst out) = written bus ++ firstn n colour)
      /\ (snd out = Returned -> written (fst out) = written bus ++ colour)
      /\ Forall (fun w => 0 <= snd w <= 255) colour)%Z.
Proof.
  intros out colour. subst out. unfold set_RGB, LED_ALL, LED_COUNT.
  split.
  - intros [N R].
    replace (led_id =? 255)%Z with false by (symmetry; lia).
    replace ((0 <=? led_id) && (led_id <? 14))%Z%bool with false;
      [reflexivity|].
    symmetry. apply andb_false_iff. lia.
  - intros V.
    replace (negb (led_id =? 255)%Z
             && negb ((0 <=? led_id)%Z && (led_id <? 14)%Z))%bool
      with false.
    + fold colour.
      destruct (write_all_spec colour bus) as (_ & A & NV & n & W & R).
      split; [exact NV|]. split; [exact A|]. split; [now exists n|].
      split; [intros X; now rewrite W, (R X)|].
      unfold colour, clamp_byte, REG_LED_SELECT.
      repeat constructor; cbn [snd]; lia.
    + symmetry. destruct V as [-> | V]; [reflexivity|].
      apply andb_false_iff. right. apply negb_false_iff.
      apply andb_true_iff. lia.
Qed.

Lemma set_RGB_writes_clamped_colour_witness :
  written (fst (set_RGB 3 300 128 (-5) flaky_bus))
  = written flaky_bus ++ [(0, 3); (1, 255); (2, 128); (3, 0)]%Z.
Proof.
  destruct (set_RGB_writes_clamped_colour 3 300 128 (-5) flaky_bus)
    as (_ & H).
  destruct H as (_ & _ & _ & R & _); [right; lia|].
  apply R. reflexivity.
Defined.

Lemma write_register_retries_three_times_witness :
  snd (_write_register 1 200 flaky_bus) = Returned.
Proof.
  apply (proj1 (proj2 (write_register_retries_three_times 1 200 flaky_bus))).
  exists 2%nat. split; [lia | reflexivity].
Defined.


End LinkFacts.

(** ** The control check, continued *)

Section ControlFacts.
Import ControllerState Controller.

(** The control check on a document that does not disable the lights and
    names an effect: the effect step, the brightness step, the demo step. *)
Lemma check_control_commands_enabled
    (t_demo : R) (hw_ok : bool) (control : ControlDoc) (e : string)
    (s : LightBarController) :
  enabled control <> Some false -> effect control = Some e ->
  check_control_commands t_demo hw_ok control s =
  let s_e :=
    if str_ne e (current_effect_name s) && str_in e (available_effects s)
    then fst (set_effect e s) else s in
  let nb := match brightness control with Some b => b | None => 100 end / 100 in
  let s_b :=
    if negb (Fade.fading (fade_controller s_e))
       && Rgtb (Rabs (nb - brightness_multiplier s_e)) (1 / 100)
    then set_brightness_multiplier nb s_e else s_e in
  if match demo_mode control with Some d => d | None => false end
  then (fst (start_demo_mode t_demo s_b),
        Some (mk_ControlDoc (effect control) (brightness control)
                (enabled control) (Some false)))
  else (s_b, None).
Proof.
  intros En Ef. unfold check_control_commands. rewrite Ef.
  assert (E : match enabled control with Some b => b | None => true end
              = true).
  { destruct (enabled control) as [[|]|]; try reflexivity.
    exfalso. now apply En. }
  rewrite E. cbn [negb]. unfold Fade.is_fading. cbv zeta.
  destruct (str_ne e (current_effect_name s)),
    (str_in e (available_effects s)); cbn [andb]; cbv beta iota;
    repeat (match goal with
            | |- context [if ?b then _ else _] => destruct b
            end; cbv beta iota; cbn [negb andb]);
    reflexivity.
Qed.


Lemma set_effect_effect_unless_available (name : string)
    (s : LightBarController) :
  str_in name (available_effects s) = false ->
  fst (set_effect name s) = s.
Proof. intros H. unfold set_effect. now rewrite H. Qed.

Lemma Rabs_self_small (x : R) : Rgtb (Rabs (x - x)) (1 / 100) = false.
Proof.
  replace (x - x) with 0 by lra. rewrite Rabs_R0. apply Rgtb_false. lra.
Qed.

(** The state after the effect and brightness steps is a fixed point of
    them. *)
Lemma control_steps_idempotent (e : string) (nb : R)
    (s : LightBarController) :
  let step s :=
    let s_e :=
      if str_ne e (current_effect_name s) && str_in e (available_effects s)
      then fst (set_effect e s) else s in
    if negb (Fade.fading (fade_controller s_e))
       && Rgtb (Rabs (nb - brightness_multiplier s_e)) (1 / 100)
    then set_brightness_multiplier nb s_e else s_e in
  step (step s) = step s.
Proof.
  cbv beta zeta.
  set (s_e := if str_ne e (current_effect_name s)
                 && str_in e (available_effects s)
              then fst (set_effect e s) else s).
  assert (N : str_ne e (current_effect_name s_e)
              && str_in e (available_effects s_e) = false).
  { subst s_e. destruct (str_ne e (current_effect_name s)) eqn:Ne;
      destruct (str_in e (available_effects s)) eqn:In; cbn [andb].
    - rewrite set_effect_name by (now apply str_in_In).
      unfold str_ne. now rewrite String.eqb_refl.
    - now rewrite Ne, In.
    - now rewrite Ne.
    - now rewrite Ne.  }
  set (s_b := if negb (Fade.fading (fade_controller s_e))
                 && Rgtb (Rabs (nb - brightness_multiplier s_e)) (1 / 100)
              then set_brightness_multiplier nb s_e else s_e).
  assert (A : current_effect_name s_b = current_effect_name s_e
              /\ available_effects s_b = available_effects s_e
              /\ fade_controller s_b = fade_controller s_e).
  { subst s_b.
    destruct (negb (Fade.fading (fade_controller s_e))
              && Rgtb (Rabs (nb - brightness_multiplier s_e)) (1 / 100));
      repeat split. }
  destruct A as (A1 & A2 & A3).
  rewrite A1, A2, N, A3.
  subst s_b.
  destruct (negb (Fade.fading (fade_controller s_e))) eqn:F; cbn [andb];
    [|reflexivity].
  destruct (Rgtb (Rabs (nb - brightness_multiplier s_e)) (1 / 100)) eqn:G.
  - cbn [brightness_multiplier set_brightness_multiplier].
    now rewrite Rabs_self_small.
  - now rewrite G.
Qed.

(** X20.  Applying a control document is idempotent: when the document does
    not ask for a demo, checking it a second time changes nothing,
    whatever the state, the hardware and the document. *)
Theorem control_check_is_idempotent
    (t t' : R) (hw hw' : bool) (control : ControlDoc)
    (s : LightBarController) :
  demo_mode control <> Some true ->
  fst (check_control_commands t' hw' control
         (fst (check_control_commands t hw control s)))
  = fst (check_control_commands t hw control s).
Proof.
  intros D.
  assert (Dm : match demo_mode control with Some d => d | None => false end
               = false).
  { destruct (demo_mode control) as [[|]|]; try reflexivity.
    exfalso. now apply D. }
  destruct (enabled control) as [[|]|] eqn:En.
  - destruct (effect control) as [e|] eqn:Ef.
    + rewrite !(check_control_commands_enabled _ _ control e)
        by (rewrite ?En; congruence).
      rewrite Dm. cbv zeta. cbn [fst].
      apply (control_steps_idempotent e).
    + assert (K : forall a b x, check_control_commands a b control x
                                = (x, None)).
      { intros a b x. unfold check_control_commands.
        rewrite En, Ef. reflexivity. }
      now rewrite !K.
  - assert (K : forall a b x,
               fst (check_control_commands a b control x)
               = if Rgtb (brightness_multiplier x) 0
                 then BrightnessWrapper.turn_off
                        (set_brightness_multiplier 0 x)
                 else x).
    { intros a b x. unfold check_control_commands.
      rewrite En, Dm. cbn [negb].
      destruct (Rgtb (brightness_multiplier x) 0); [destruct b|];
        reflexivity. }
    rewrite !K.
    destruct (Rgtb (brightness_multiplier s) 0) eqn:G.
    + cbn [brightness_multiplier BrightnessWrapper.turn_off set_raw_bot
           set_brightness_multiplier].
      now rewrite Rgtb_false by lra.
    + now rewrite G.
  - destruct (effect control) as [e|] eqn:Ef.
    + rewrite !(check_control_commands_enabled _ _ control e)
        by (rewrite ?En; congruence).
      rewrite Dm. cbv zeta. cbn [fst].
      apply (control_steps_idempotent e).
    + assert (K : forall a b x, check_control_commands a b control x
                                = (x, None)).
      { intros a b x. unfold check_control_commands.
        rewrite En, Ef. reflexivity. }
      now rewrite !K.
Qed.

Lemma control_check_is_idempotent_witness :
  fst (check_control_commands 1 true disabled_document
         (fst (check_control_commands 0 true disabled_document
                 lit_controller)))
  = fst (check_control_commands 0 true disabled_document lit_controller).
Proof.
  apply (control_check_is_idempotent 0 1 true true disabled_document
           lit_controller).
  discriminate.
Defined.



End ControlFacts.

(** ** The demo sequence, continued *)

Section DemoFacts.
Import ControllerState Controller.




(** X23.  Each of the five demo effects gets its own six seconds: while
    the demo runs and its effects are in the configured list, an update
    made in the slice [k] leaves the effect of index [k] current, with its
    effect object, and the demo running. *)
Theorem demo_slice_selects_effect
    (now : R) (k : Z) (s : LightBarController) :
  demo_mode_active s = true ->
  incl demo_mode_effects (available_effects s) ->
  (0 <= k <= 4)%Z ->
  IZR k * 6 <= now - demo_mode_start_time s < IZR k * 6 + 6 ->
  let out := update_demo_mode now s in
  snd out = Ok tt
  /\ demo_mode_active (fst out) = true
  /\ nth_error demo_mode_effects (Z.to_nat k)
     = Some (current_effect_name (fst out))
  /\ (str_ne (current_effect_name (fst out)) (current_effect_name s) = true ->
      current_effect (fst out) = EFFECTS (current_effect_name (fst out)))
  /\ (str_ne (current_effect_name (fst out)) (current_effect_name s) = false ->
      fst out = s).
Proof.
  intros A Reg K E out. subst out.
  destruct (update_demo_mode_slice now k s A K E) as (target & T & U).
  rewrite U. cbn [fst snd].
  assert (In_t : In target (available_effects s))
    by (apply Reg; now apply nth_error_In in T).
  assert (Nm : current_effect_name
                 (if str_ne target (current_effect_name s)
                  then fst (set_effect target s) else s) = target).
  { destruct (str_ne target (current_effect_name s)) eqn:Ne.
    - now apply set_effect_name.
    - unfold str_ne in Ne. apply negb_false_iff, String.eqb_eq in Ne.
      now symmetry. }
  rewrite Nm. split; [reflexivity|]. split; [|split; [exact T|split]].
  - destruct (str_ne target (current_effect_name s));
      [now rewrite set_effect_demo_active | exact A].
  - intros Ne. rewrite Ne.
    destruct (demo_effects_registered target) as [cls R];
      [now apply nth_error_In in T|].
    rewrite R. now apply set_effect_instance.
  - intros Ne. now rewrite Ne.
Qed.

Lemma demo_slice_selects_effect_witness :
  nth_error demo_mode_effects 3
  = Some (current_effect_name (fst (update_demo_mode 120 demo_started))).
Proof.
  assert (F : demo_mode_start_time demo_started = 100) by reflexivity.
  apply (demo_slice_selects_effect 120 3 demo_started).
  - reflexivity.
  - intros x H. exact H.
  - lia.
  - rewrite F. lra.
Defined.

Lemma py_int_negative (x : R) (n : Z) :
  (0 <= n)%Z -> x <= - IZR n -> (py_int x <= - n)%Z.
Proof.
  intros N H. unfold py_int.
  destruct (Rle_dec 0 x) as [P|P].
  - assert (E : IZR n = 0).
    { assert (0 <= IZR n) by (apply IZR_le; lia). lra. }
    assert (n = 0)%Z by (apply eq_IZR; exact E). subst n.
    assert (x = 0) by lra. subst x.
    replace (Int_part 0) with 0%Z; [lia|].
    apply Int_part_spec. lra.
  - destruct (base_Int_part (- x)) as [A B].
    assert (L : IZR n < IZR (Int_part (- x) + 1)) by (rewrite plus_IZR; lra).
    apply lt_IZR in L. lia.
Qed.

Lemma py_index_below_range {A : Type} (xs : list A) (i : Z) :
  (i < - Z.of_nat (List.length xs))%Z -> py_index xs i = None.
Proof.
  intros H. unfold py_index.
  replace (0 <=? i)%Z with false by (symmetry; lia).
  replace (- Z.of_nat (List.length xs) <=? i)%Z with false
    by (symmetry; lia).
  reflexivity.
Qed.

(** X24.  The demo does not survive a clock that is set back by 36 seconds
    or more: the slice index falls below the range of Python's negative
    indices and [update_demo_mode] raises [IndexError], with the controller
    left as it is. *)
Theorem demo_update_raises_when_clock_goes_back
    (now : R) (s : LightBarController) :
  demo_mode_active s = true ->
  now - demo_mode_start_time s <= -36 ->
  update_demo_mode now s = (s, Raise IndexError).
Proof.
  intros A E. unfold update_demo_mode. rewrite A. cbn [negb].
  rewrite Rgeb_false by (unfold demo_mode_duration; lra).
  rewrite effect_duration_six.
  assert (P : (py_int ((now - demo_mode_start_time s) / 6) <= - 6)%Z)
    by (apply (py_int_negative _ 6); [lia | lra]).
  set (i := py_int ((now - demo_mode_start_time s) / 6)) in *.
  assert (L : Z.of_nat (List.length demo_mode_effects) = 5%Z) by reflexivity.
  rewrite py_index_below_range by (rewrite L; lia).
  reflexivity.
Qed.

Lemma demo_update_raises_when_clock_goes_back_witness :
  update_demo_mode 60 demo_started = (demo_started, Raise IndexError).
Proof.
  assert (F : demo_mode_start_time demo_started = 100) by reflexivity.
  apply (demo_update_raises_when_clock_goes_back 60 demo_started).
  - reflexivity.
  - rewrite F. lra.
Defined.

(** X25.  The randomness override is a ramp from 1 to 5: no override
    outside a demo; in a demo, from the start on, it is
    [1 + 4 * elapsed / 30] up to the total duration and 5 after it, it
    stays within [1,5] and never decreases with time. *)
Theorem randomness_override_ramps (now : R) (s : LightBarController) :
  (demo_mode_active s = false -> calculate_randomness_override now s = None)
  /\ (demo_mode_active s = true -> demo_mode_start_time s <= now ->
      exists r,
        calculate_randomness_override now s = Some r
        /\ 1 <= r <= 5
        /\ (now - demo_mode_start_time s <= 30 ->
            r = 1 + 4 * (now - demo_mode_start_time s) / 30)
        /\ (now - demo_mode_start_time s >= 30 -> r = 5)
        /\ (forall later r',
              now <= later ->
              calculate_randomness_override later s = Some r' -> r <= r')).
Proof.
  unfold calculate_randomness_override, demo_mode_duration. split.
  - intros ->. reflexivity.
  - intros -> E. cbn [negb]. eexists. split; [reflexivity|].
    set (x := now - demo_mode_start_time s) in *.
    assert (0 <= x) by (unfold x; lra).
    split; [|split; [|split]].
    + destruct (Rmin_cases 5 (1 + x / 30 * 4)) as [[? ->] | [? ->]]; lra.
    + intros. rewrite Rmin_right by lra. lra.
    + intros. rewrite Rmin_left by lra. reflexivity.
    + intros later r' L [= <-].
      destruct (Rmin_cases 5 (1 + x / 30 * 4)) as [[? ->] | [? ->]];
        destruct (Rmin_cases 5 (1 + (later - demo_mode_start_time s) / 30 * 4))
          as [[? ->] | [? ->]]; unfold x in *; lra.
Qed.

Lemma randomness_override_ramps_witness :
  exists r, calculate_randomness_override 115 demo_started = Some r
            /\ 1 <= r <= 5.
Proof.
  assert (F : demo_mode_start_time demo_started = 100) by reflexivity.
  destruct (randomness_override_ramps 115 demo_started) as [_ H].
  destruct H as (r & E & B & _); [reflexivity | rewrite F; lra |].
  exists r. split; assumption.
Defined.

End DemoFacts.

(** ** Fade and control in one loop iteration *)

Section IterationFacts.
Import ControllerState Controller.







End IterationFacts.

Section IterationWitness.
Import ControllerState Controller.


End IterationWitness.

(** ** Collecting the metrics *)

Section CollectFacts.
Import ControllerState Collect.

(** X27.  The normalised system load stays in [0,1]: whatever the monitor
    file and the operating system report, a load within [0,1] before
    [collect_system_metrics] is within [0,1] after it. *)
Theorem collected_load_is_normalised
    (now : R) (file : OledSync.StateFile) (ps : Psutil)
    (self : LightBarController) (oled_sync : OledSync.OLEDSync) :
  0 <= system_load (system_metrics self) <= 1 ->
  0 <= system_load
         (system_metrics
            (fst (collect_system_metrics now file ps self oled_sync)))
    <= 1.
Proof.
  intros H. unfold collect_system_metrics.
  destruct (OledSync.get_system_metrics now file oled_sync) as [o [om|]].
  - destruct (OledSync.m_load_average om) as [|first rest]; cbn [fst].
    + exact H.
    + destruct (ps_cpu_count ps) as [n|]; [|exact H].
      destruct (n =? 0)%Z; [exact H|]. cbn.
      match goal with
      | |- context [Rmin 1 (Rmax 0 ?x)] =>
        destruct (Rmin_cases 1 (Rmax 0 x)) as [[? ->] | [? ->]];
          destruct (Rmax_cases 0 x) as [[? E] | [? E]]; rewrite ?E in *; lra
      end.
  - destruct (ps_cpu_count ps) as [n|];
      [|destruct (ps_temp_millidegrees ps); exact H].
    destruct (n =? 0)%Z; [destruct (ps_temp_millidegrees ps); exact H|].
    destruct (ps_temp_millidegrees ps); cbn;
      match goal with
      | |- context [Rmin 1 (Rmax 0 ?x)] =>
        destruct (Rmin_cases 1 (Rmax 0 x)) as [[? ->] | [? ->]];
          destruct (Rmax_cases 0 x) as [[? E] | [? E]]; rewrite ?E in *; lra
      end.
Qed.

Lemma collected_load_is_normalised_witness :
  0 <= system_load
         (system_metrics
            (fst (collect_system_metrics 12 OledSync.Missing quiet_psutil
                    Controller.lit_controller OledSync.init)))
    <= 1.
Proof.
  apply (collected_load_is_normalised 12 OledSync.Missing quiet_psutil
           Controller.lit_controller OledSync.init).
  assert (E : system_load (system_metrics Controller.lit_controller) = 0)
    by reflexivity.
  rewrite E. lra.
Defined.



End CollectFacts.
